(** * infra-mcp-server: schema introspection, fallback queries, schema cache
      and the read-only query guard (package [dbtools]).

    The definitions follow [pkg/dbtools/schema_cache.go] (which holds the
    schema cache and the schema explorer), [pkg/dbtools/query.go] and, for
    [GetDatabase], [pkg/db/manager.go].

    Modelling conventions.
    - A Go [interface{}] is the tagged union [value]; a
      [map[string]interface{}] is a [gmap string value].  A nil slice and an
      empty slice are both the empty list, a nil map and an empty map are
      both [∅] (the code only reads them).
    - A Go [error] is [error]: a plain message or a message wrapping an inner
      error, as [fmt.Errorf] with [%w] builds it.
    - A database handle answers a query from its text and arguments alone (a
      snapshot of the database); every call of [db.Query] is recorded, in
      order, in the trace carried by the monad [M].
    - Logging, contexts and their deadlines, and the closing of cursors are
      not modelled. *)

From stdpp Require Import gmap strings list fin_maps pretty.
From Stdlib Require Import ZArith.

Local Open Scope string_scope.
Local Open Scope list_scope.

(** ** Go values *)

#[warnings="-register-all"]
Inductive value : Type :=
| VNil
| VString (s : string)
| VInt (n : Z)
| VBool (b : bool)
| VStrings (l : list string)
| VList (l : list value)
| VRows (l : list (gmap string value))
| VMap (m : gmap string value)
| VEnums (m : gmap string (list string)).

(** A result row, [map[string]interface{}]. *)
Abbreviation Row := (gmap string value).

(** The [%T] verb of [fmt]. *)
Definition typeName (v : value) : string :=
  match v with
  | VNil => "<nil>"
  | VString _ => "string"
  | VInt _ => "int64"
  | VBool _ => "bool"
  | VStrings _ => "[]string"
  | VList _ => "[]interface {}"
  | VRows _ => "[]map[string]interface {}"
  | VMap _ => "map[string]interface {}"
  | VEnums _ => "map[string][]string"
  end.

(** The double quote character, and the [%q] verb on a key without special
    characters (every key the code quotes is a plain identifier). *)
Definition dquote : string := String (Ascii.ascii_of_nat 34) EmptyString.
Definition quoted (s : string) : string := dquote +:+ s +:+ dquote.

(** ** Errors *)

Inductive error : Type :=
| errorString (s : string)
| wrapError (msg : string) (err : error).

Definition Error (e : error) : string :=
  match e with
  | errorString s => s
  | wrapError msg _ => msg
  end.

Definition Unwrap (e : error) : option error :=
  match e with
  | errorString _ => None
  | wrapError _ err => Some err
  end.

(** [fmt.Errorf(prefix + "%w", err)]. *)
Definition Errorf_w (prefix : string) (err : error) : error :=
  wrapError (prefix +:+ Error err) err.

(** [fmt.Errorf(prefix + "%w", err)] where [err] may be the nil error: [fmt]
    then prints the bad-verb marker and the result wraps nothing. *)
Definition Errorf_w_nil (prefix : string) (err : option error) : error :=
  match err with
  | Some e => Errorf_w prefix e
  | None => errorString (prefix +:+ "%!w(<nil>)")
  end.

Inductive result (A : Type) : Type :=
| Ok (a : A)
| Err (e : error).
Arguments Ok {A} a.
Arguments Err {A} e.

Definition is_Ok {A} (r : result A) : Prop := ∃ a, r = Ok a.
Definition is_Err {A} (r : result A) : Prop := ∃ e, r = Err e.

(** ** Query candidates and the trace of executed queries *)

Record queryWithArgs : Type := mkQuery {
  query : string;
  args : list value
}.

(** A computation that talks to the database: its value and the queries it
    sent, oldest first. *)
Definition M (A : Type) : Type := A * list queryWithArgs.

Definition ret {A} (a : A) : M A := (a, []).
Definition bind {A B} (m : M A) (f : A → M B) : M B :=
  let '(a, t1) := m in let '(b, t2) := f a in (b, t1 ++ t2).

Notation "'let*' x ':=' m 'in' k" := (bind m (λ x, k))
  (at level 10, x name, m at level 100, k at level 200,
   format "'let*'  x  ':='  m  'in'  '//' k").

Definition value_of {A} (m : M A) : A := fst m.
Definition trace_of {A} (m : M A) : list queryWithArgs := snd m.

(** ** Dialect strategies *)

(** [DatabaseStrategy]: the ordered query candidates of each facet. *)
Record DatabaseStrategy : Type := mkStrategy {
  GetTablesQueries : list queryWithArgs;
  GetColumnsQueries : string → list queryWithArgs;
  GetRelationshipsQueries : string → list queryWithArgs;
  GetPrimaryKeysQueries : string → list queryWithArgs;
  GetIndexesQueries : string → list queryWithArgs;
  GetEnumValuesQueries : list queryWithArgs;
  GetUniqueConstraintsQueries : string → list queryWithArgs;
  GetTableStatsQueries : string → list queryWithArgs
}.

Module PostgresStrategy.

Definition GetTablesQueries : list queryWithArgs :=
  [ mkQuery "SELECT tablename as table_name FROM pg_catalog.pg_tables WHERE schemaname = 'public'" [];
    mkQuery "SELECT table_name FROM information_schema.tables WHERE table_schema = 'public'" [];
    mkQuery "SELECT relname as table_name FROM pg_catalog.pg_class WHERE relkind = 'r' AND relnamespace = (SELECT oid FROM pg_catalog.pg_namespace WHERE nspname = 'public')" [] ].

Definition GetColumnsQueries (table : string) : list queryWithArgs :=
  [ mkQuery "
				SELECT 
					column_name, 
					data_type,
					udt_name,
					CASE WHEN is_nullable = 'YES' THEN 'YES' ELSE 'NO' END as is_nullable,
					column_default
				FROM information_schema.columns 
				WHERE table_name = $1 AND table_schema = 'public'
				ORDER BY ordinal_position
			" [VString table];
    mkQuery "
				SELECT 
					a.attname as column_name, 
					pg_catalog.format_type(a.atttypid, a.atttypmod) as data_type,
					t.typname as udt_name,
					CASE WHEN a.attnotnull THEN 'NO' ELSE 'YES' END as is_nullable,
					pg_catalog.pg_get_expr(d.adbin, d.adrelid) as column_default
				FROM pg_catalog.pg_attribute a
				LEFT JOIN pg_catalog.pg_attrdef d ON (a.attrelid = d.adrelid AND a.attnum = d.adnum)
				LEFT JOIN pg_catalog.pg_type t ON a.atttypid = t.oid
				WHERE a.attrelid = (SELECT oid FROM pg_catalog.pg_class WHERE relname = $1 AND relnamespace = (SELECT oid FROM pg_catalog.pg_namespace WHERE nspname = 'public'))
				AND a.attnum > 0 AND NOT a.attisdropped
				ORDER BY a.attnum
			" [VString table] ].

Definition GetRelationshipsQueries (table : string) : list queryWithArgs :=
  let baseQueries0 := mkQuery "
				SELECT
					tc.table_schema,
					tc.constraint_name,
					tc.table_name,
					kcu.column_name,
					ccu.table_schema AS foreign_table_schema,
					ccu.table_name AS foreign_table_name,
					ccu.column_name AS foreign_column_name
				FROM information_schema.table_constraints AS tc
				JOIN information_schema.key_column_usage AS kcu
					ON tc.constraint_name = kcu.constraint_name
					AND tc.table_schema = kcu.table_schema
				JOIN information_schema.constraint_column_usage AS ccu
					ON ccu.constraint_name = tc.constraint_name
					AND ccu.table_schema = tc.table_schema
				WHERE tc.constraint_type = 'FOREIGN KEY'
					AND tc.table_schema = 'public'
			" [] in
  let baseQueries1 := mkQuery "
				SELECT
					ns.nspname AS table_schema,
					c.conname AS constraint_name,
					cl.relname AS table_name,
					att.attname AS column_name,
					ns2.nspname AS foreign_table_schema,
					cl2.relname AS foreign_table_name,
					att2.attname AS foreign_column_name
				FROM pg_constraint c
				JOIN pg_class cl ON c.conrelid = cl.oid
				JOIN pg_attribute att ON att.attrelid = cl.oid AND att.attnum = ANY(c.conkey)
				JOIN pg_namespace ns ON ns.oid = cl.relnamespace
				JOIN pg_class cl2 ON c.confrelid = cl2.oid
				JOIN pg_attribute att2 ON att2.attrelid = cl2.oid AND att2.attnum = ANY(c.confkey)
				JOIN pg_namespace ns2 ON ns2.oid = cl2.relnamespace
				WHERE c.contype = 'f'
				AND ns.nspname = 'public'
			" [] in
  if decide (table = "") then [ baseQueries0; baseQueries1 ]
  else
    [ mkQuery (query baseQueries0 +:+ " AND (tc.table_name = $1 OR ccu.table_name = $1)") [VString table];
      mkQuery (query baseQueries1 +:+ " AND (cl.relname = $1 OR cl2.relname = $1)") [VString table] ].

Definition GetPrimaryKeysQueries (table : string) : list queryWithArgs :=
  if decide (table = "") then
    [ mkQuery "
				SELECT 
					tc.table_name,
					kcu.column_name,
					tc.constraint_name
				FROM information_schema.table_constraints tc
				JOIN information_schema.key_column_usage kcu 
					ON tc.constraint_name = kcu.constraint_name
					AND tc.table_schema = kcu.table_schema
				WHERE tc.constraint_type = 'PRIMARY KEY' 
					AND tc.table_schema = 'public'
				ORDER BY tc.table_name, kcu.ordinal_position
			" [] ]
  else
    [ mkQuery "
				SELECT 
					tc.table_name,
					kcu.column_name,
					tc.constraint_name
				FROM information_schema.table_constraints tc
				JOIN information_schema.key_column_usage kcu 
					ON tc.constraint_name = kcu.constraint_name
					AND tc.table_schema = kcu.table_schema
				WHERE tc.constraint_type = 'PRIMARY KEY' 
					AND tc.table_schema = 'public'
					AND tc.table_name = $1
				ORDER BY kcu.ordinal_position
			" [VString table] ].

Definition GetIndexesQueries (table : string) : list queryWithArgs :=
  if decide (table = "") then
    [ mkQuery "
				SELECT 
					tablename,
					indexname,
					indexdef
				FROM pg_indexes
				WHERE schemaname = 'public'
				ORDER BY tablename, indexname
			" [] ]
  else
    [ mkQuery "
				SELECT 
					tablename,
					indexname,
					indexdef
				FROM pg_indexes
				WHERE schemaname = 'public'
					AND tablename = $1
				ORDER BY indexname
			" [VString table] ].

Definition GetEnumValuesQueries : list queryWithArgs :=
  [ mkQuery "
				SELECT 
					t.typname as enum_name,
					n.nspname as schema_name,
					e.enumlabel as enum_value,
					e.enumsortorder as sort_order
				FROM pg_type t
				JOIN pg_enum e ON t.oid = e.enumtypid
				JOIN pg_catalog.pg_namespace n ON n.oid = t.typnamespace
				WHERE n.nspname = 'public'
				ORDER BY t.typname, e.enumsortorder
			" [] ].

Definition GetUniqueConstraintsQueries (table : string) : list queryWithArgs :=
  if decide (table = "") then
    [ mkQuery "
				SELECT 
					tc.table_name,
					tc.constraint_name,
					tc.constraint_type,
					STRING_AGG(kcu.column_name, ', ' ORDER BY kcu.ordinal_position) as column_names
				FROM information_schema.table_constraints tc
				JOIN information_schema.key_column_usage kcu 
					ON tc.constraint_name = kcu.constraint_name
					AND tc.table_schema = kcu.table_schema
				WHERE tc.constraint_type IN ('UNIQUE', 'PRIMARY KEY') 
					AND tc.table_schema = 'public'
				GROUP BY tc.table_name, tc.constraint_name, tc.constraint_type
				ORDER BY tc.table_name, tc.constraint_name
			" [] ]
  else
    [ mkQuery "
				SELECT 
					tc.table_name,
					tc.constraint_name,
					tc.constraint_type,
					STRING_AGG(kcu.column_name, ', ' ORDER BY kcu.ordinal_position) as column_names
				FROM information_schema.table_constraints tc
				JOIN information_schema.key_column_usage kcu 
					ON tc.constraint_name = kcu.constraint_name
					AND tc.table_schema = kcu.table_schema
				WHERE tc.constraint_type IN ('UNIQUE', 'PRIMARY KEY') 
					AND tc.table_schema = 'public'
					AND tc.table_name = $1
				GROUP BY tc.table_name, tc.constraint_name, tc.constraint_type
				ORDER BY tc.constraint_name
			" [VString table] ].

Definition GetTableStatsQueries (table : string) : list queryWithArgs :=
  if decide (table = "") then
    [ mkQuery "
				SELECT 
					schemaname,
					relname as table_name,
					n_live_tup as row_count_estimate,
					n_dead_tup as dead_tuples,
					last_vacuum,
					last_autovacuum,
					last_analyze,
					last_autoanalyze
				FROM pg_stat_user_tables
				WHERE schemaname = 'public'
				ORDER BY relname
			" [] ]
  else
    [ mkQuery "
				SELECT 
					schemaname,
					relname as table_name,
					n_live_tup as row_count_estimate,
					n_dead_tup as dead_tuples,
					last_vacuum,
					last_autovacuum,
					last_analyze,
					last_autoanalyze
				FROM pg_stat_user_tables
				WHERE schemaname = 'public'
					AND relname = $1
			" [VString table] ].

Definition strategy : DatabaseStrategy :=
  mkStrategy GetTablesQueries GetColumnsQueries GetRelationshipsQueries
    GetPrimaryKeysQueries GetIndexesQueries GetEnumValuesQueries
    GetUniqueConstraintsQueries GetTableStatsQueries.

End PostgresStrategy.

Module MySQLStrategy.

Definition GetTablesQueries : list queryWithArgs :=
  [ mkQuery "SELECT table_name FROM information_schema.tables WHERE table_schema = DATABASE()" [];
    mkQuery "SHOW TABLES" [] ].

Definition GetColumnsQueries (table : string) : list queryWithArgs :=
  [ mkQuery "
				SELECT column_name, data_type, is_nullable, column_default
				FROM information_schema.columns
				WHERE table_name = ? AND table_schema = DATABASE()
				ORDER BY ordinal_position
			" [VString table];
    mkQuery ("SHOW COLUMNS FROM " +:+ table) [] ].

Definition GetRelationshipsQueries (table : string) : list queryWithArgs :=
  let baseQueries0 := mkQuery "
				SELECT
					tc.table_schema,
					tc.constraint_name,
					tc.table_name,
					kcu.column_name,
					kcu.referenced_table_schema AS foreign_table_schema,
					kcu.referenced_table_name AS foreign_table_name,
					kcu.referenced_column_name AS foreign_column_name
				FROM information_schema.table_constraints AS tc
				JOIN information_schema.key_column_usage AS kcu
					ON tc.constraint_name = kcu.constraint_name
					AND tc.table_schema = kcu.table_schema
				WHERE tc.constraint_type = 'FOREIGN KEY'
					AND tc.table_schema = DATABASE()
			" [] in
  let baseQueries1 := mkQuery "
				SELECT
					kcu.constraint_schema AS table_schema,
					kcu.constraint_name,
					kcu.table_name,
					kcu.column_name,
					kcu.referenced_table_schema AS foreign_table_schema,
					kcu.referenced_table_name AS foreign_table_name,
					kcu.referenced_column_name AS foreign_column_name
				FROM information_schema.key_column_usage kcu
				WHERE kcu.referenced_table_name IS NOT NULL
					AND kcu.constraint_schema = DATABASE()
			" [] in
  if decide (table = "") then [ baseQueries0; baseQueries1 ]
  else
    [ mkQuery (query baseQueries0 +:+ " AND (tc.table_name = ? OR kcu.referenced_table_name = ?)") [VString table; VString table];
      mkQuery (query baseQueries1 +:+ " AND (kcu.table_name = ? OR kcu.referenced_table_name = ?)") [VString table; VString table] ].

Definition GetPrimaryKeysQueries (table : string) : list queryWithArgs :=
  let baseQuery := "
		SELECT 
			tc.table_name,
			kcu.column_name,
			tc.constraint_name
		FROM information_schema.table_constraints tc
		JOIN information_schema.key_column_usage kcu 
			ON tc.constraint_name = kcu.constraint_name
			AND tc.table_schema = kcu.table_schema
		WHERE tc.constraint_type = 'PRIMARY KEY' 
			AND tc.table_schema = DATABASE()
		ORDER BY tc.table_name, kcu.ordinal_position
	" in
  if decide (table = "") then [ mkQuery baseQuery [] ]
  else [ mkQuery (baseQuery +:+ " AND tc.table_name = ?") [VString table] ].

Definition GetIndexesQueries (table : string) : list queryWithArgs :=
  let baseQuery := "
		SELECT 
			table_name,
			index_name,
			GROUP_CONCAT(column_name ORDER BY seq_in_index) as column_names,
			non_unique
		FROM information_schema.statistics
		WHERE table_schema = DATABASE()
		GROUP BY table_name, index_name, non_unique
		ORDER BY table_name, index_name
	" in
  if decide (table = "") then [ mkQuery baseQuery [] ]
  else [ mkQuery (baseQuery +:+ " HAVING table_name = ?") [VString table] ].

Definition GetEnumValuesQueries : list queryWithArgs :=
  [ mkQuery "
				SELECT 
					c.table_name,
					c.column_name as enum_name,
					c.column_type as enum_definition
				FROM information_schema.columns c
				WHERE c.table_schema = DATABASE()
					AND c.column_type LIKE 'enum(%'
				ORDER BY c.table_name, c.column_name
			" [] ].

Definition GetUniqueConstraintsQueries (table : string) : list queryWithArgs :=
  let baseQuery := "
		SELECT 
			tc.table_name,
			tc.constraint_name,
			tc.constraint_type,
			GROUP_CONCAT(kcu.column_name ORDER BY kcu.ordinal_position) as column_names
		FROM information_schema.table_constraints tc
		JOIN information_schema.key_column_usage kcu 
			ON tc.constraint_name = kcu.constraint_name
			AND tc.table_schema = kcu.table_schema
		WHERE tc.constraint_type IN ('UNIQUE', 'PRIMARY KEY') 
			AND tc.table_schema = DATABASE()
		GROUP BY tc.table_name, tc.constraint_name, tc.constraint_type
		ORDER BY tc.table_name, tc.constraint_name
	" in
  if decide (table = "") then [ mkQuery baseQuery [] ]
  else [ mkQuery (baseQuery +:+ " HAVING tc.table_name = ?") [VString table] ].

Definition GetTableStatsQueries (table : string) : list queryWithArgs :=
  let baseQuery := "
		SELECT 
			table_schema,
			table_name,
			table_rows as row_count_estimate,
			data_length,
			index_length,
			data_free,
			create_time,
			update_time
		FROM information_schema.tables
		WHERE table_schema = DATABASE()
		ORDER BY table_name
	" in
  if decide (table = "") then [ mkQuery baseQuery [] ]
  else [ mkQuery (baseQuery +:+ " AND table_name = ?") [VString table] ].

Definition strategy : DatabaseStrategy :=
  mkStrategy GetTablesQueries GetColumnsQueries GetRelationshipsQueries
    GetPrimaryKeysQueries GetIndexesQueries GetEnumValuesQueries
    GetUniqueConstraintsQueries GetTableStatsQueries.

End MySQLStrategy.

Module GenericStrategy.

Definition GetTablesQueries : list queryWithArgs :=
  [ mkQuery "SELECT table_name FROM information_schema.tables WHERE table_schema = 'public'" [];
    mkQuery "SELECT table_name FROM information_schema.tables" [];
    mkQuery "SHOW TABLES" [] ].

Definition GetColumnsQueries (table : string) : list queryWithArgs :=
  [ mkQuery "
				SELECT column_name, data_type, is_nullable, column_default
				FROM information_schema.columns
				WHERE table_name = $1
				ORDER BY ordinal_position
			" [VString table];
    mkQuery "
				SELECT column_name, data_type, is_nullable, column_default
				FROM information_schema.columns
				WHERE table_name = ?
				ORDER BY ordinal_position
			" [VString table] ].

Definition GetRelationshipsQueries (table : string) : list queryWithArgs :=
  let pgQuery := mkQuery "
			SELECT
				tc.table_schema,
				tc.constraint_name,
				tc.table_name,
				kcu.column_name,
				ccu.table_schema AS foreign_table_schema,
				ccu.table_name AS foreign_table_name,
				ccu.column_name AS foreign_column_name
			FROM information_schema.table_constraints AS tc
			JOIN information_schema.key_column_usage AS kcu
				ON tc.constraint_name = kcu.constraint_name
				AND tc.table_schema = kcu.table_schema
			JOIN information_schema.constraint_column_usage AS ccu
				ON ccu.constraint_name = tc.constraint_name
				AND ccu.table_schema = tc.table_schema
			WHERE tc.constraint_type = 'FOREIGN KEY'
		" [] in
  let mysqlQuery := mkQuery "
			SELECT
				kcu.constraint_schema AS table_schema,
				kcu.constraint_name,
				kcu.table_name,
				kcu.column_name,
				kcu.referenced_table_schema AS foreign_table_schema,
				kcu.referenced_table_name AS foreign_table_name,
				kcu.referenced_column_name AS foreign_column_name
			FROM information_schema.key_column_usage kcu
			WHERE kcu.referenced_table_name IS NOT NULL
		" [] in
  if decide (table ≠ "") then
    [ mkQuery (query pgQuery +:+ " AND (tc.table_name = $1 OR ccu.table_name = $1)") (args pgQuery ++ [VString table]);
      mkQuery (query mysqlQuery +:+ " AND (kcu.table_name = ? OR kcu.referenced_table_name = ?)")
        (args mysqlQuery ++ [VString table; VString table]) ]
  else [ pgQuery; mysqlQuery ].

Definition GetPrimaryKeysQueries (table : string) : list queryWithArgs :=
  let baseQuery := "
		SELECT 
			tc.table_name,
			kcu.column_name,
			tc.constraint_name
		FROM information_schema.table_constraints tc
		JOIN information_schema.key_column_usage kcu 
			ON tc.constraint_name = kcu.constraint_name
		WHERE tc.constraint_type = 'PRIMARY KEY'
		ORDER BY tc.table_name, kcu.ordinal_position
	" in
  if decide (table = "") then [ mkQuery baseQuery [] ]
  else [ mkQuery (baseQuery +:+ " AND tc.table_name = ?") [VString table] ].

Definition GetIndexesQueries (table : string) : list queryWithArgs :=
  let baseQuery := "
		SELECT 
			table_name,
			index_name,
			column_name
		FROM information_schema.statistics
		ORDER BY table_name, index_name
	" in
  if decide (table = "") then [ mkQuery baseQuery [] ]
  else [ mkQuery (baseQuery +:+ " WHERE table_name = ?") [VString table] ].

Definition GetEnumValuesQueries : list queryWithArgs :=
  [ mkQuery "
				SELECT 
					t.typname as enum_name,
					n.nspname as schema_name,
					e.enumlabel as enum_value,
					e.enumsortorder as sort_order
				FROM pg_type t
				JOIN pg_enum e ON t.oid = e.enumtypid
				JOIN pg_catalog.pg_namespace n ON n.oid = t.typnamespace
				WHERE n.nspname = 'public'
				ORDER BY t.typname, e.enumsortorder
			" [];
    mkQuery "
				SELECT 
					c.table_name,
					c.column_name as enum_name,
					c.column_type as enum_definition
				FROM information_schema.columns c
				WHERE c.table_schema = DATABASE()
					AND c.column_type LIKE 'enum(%'
				ORDER BY c.table_name, c.column_name
			" [] ].

Definition GetUniqueConstraintsQueries (table : string) : list queryWithArgs :=
  let baseQuery := "
		SELECT 
			tc.table_name,
			tc.constraint_name,
			tc.constraint_type,
			kcu.column_name
		FROM information_schema.table_constraints tc
		JOIN information_schema.key_column_usage kcu 
			ON tc.constraint_name = kcu.constraint_name
		WHERE tc.constraint_type IN ('UNIQUE', 'PRIMARY KEY')
		ORDER BY tc.table_name, tc.constraint_name, kcu.ordinal_position
	" in
  if decide (table = "") then [ mkQuery baseQuery [] ]
  else [ mkQuery (baseQuery +:+ " AND tc.table_name = ?") [VString table] ].

Definition GetTableStatsQueries (table : string) : list queryWithArgs :=
  let pgQuery := mkQuery "
			SELECT 
				schemaname,
				relname as table_name,
				n_live_tup as row_count_estimate,
				n_dead_tup as dead_tuples,
				last_vacuum,
				last_autovacuum,
				last_analyze,
				last_autoanalyze
			FROM pg_stat_user_tables
			WHERE schemaname = 'public'
		" [] in
  let mysqlQuery := mkQuery "
			SELECT 
				table_schema,
				table_name,
				table_rows as row_count_estimate,
				data_length,
				index_length,
				data_free,
				create_time,
				update_time
			FROM information_schema.tables
			WHERE table_schema = DATABASE()
		" [] in
  if decide (table ≠ "") then
    [ mkQuery (query pgQuery +:+ " AND relname = $1") (args pgQuery ++ [VString table]);
      mkQuery (query mysqlQuery +:+ " AND table_name = ?") (args mysqlQuery ++ [VString table]) ]
  else
    [ mkQuery (query pgQuery +:+ " ORDER BY relname") (args pgQuery);
      mkQuery (query mysqlQuery +:+ " ORDER BY table_name") (args mysqlQuery) ].

Definition strategy : DatabaseStrategy :=
  mkStrategy GetTablesQueries GetColumnsQueries GetRelationshipsQueries
    GetPrimaryKeysQueries GetIndexesQueries GetEnumValuesQueries
    GetUniqueConstraintsQueries GetTableStatsQueries.

End GenericStrategy.

(** [NewDatabaseStrategy]: exact match on the driver name, else generic. *)
Definition NewDatabaseStrategy (driverName : string) : DatabaseStrategy :=
  if decide (driverName = "postgres") then PostgresStrategy.strategy
  else if decide (driverName = "mysql") then MySQLStrategy.strategy
  else GenericStrategy.strategy.

(** ** The read-only guard of the query tool *)

(** [strings.HasPrefix] and [strings.Contains] on byte strings. *)
Definition HasPrefix (s prefix : string) : bool := String.prefix prefix s.

Fixpoint Contains (s substr : string) : bool :=
  HasPrefix s substr ||
  match s with
  | EmptyString => false
  | String _ s' => Contains s' substr
  end.

Definition writeKeywords : list string :=
  [ "INSERT"; "UPDATE"; "DELETE"; "DROP"; "CREATE"; "ALTER";
    "TRUNCATE"; "REPLACE"; "MERGE"; "GRANT"; "REVOKE";
    "EXEC"; "EXECUTE"; "CALL" ].

Definition dangerousPatterns : list string :=
  [ "INSERT INTO"; "UPDATE "; "DELETE FROM"; "DROP "; "CREATE ";
    "ALTER "; "TRUNCATE "; "INTO OUTFILE"; "INTO DUMPFILE" ].

Definition statementError (keyword : string) : error :=
  errorString
    ("write operations are not allowed in read-only mode: detected " +:+
     keyword +:+ " statement").

Definition patternError (pattern : string) : error :=
  errorString
    ("write operations are not allowed in read-only mode: detected '" +:+
     pattern +:+ "' pattern").

(** The loop over [writeKeywords]: the error it returns, if any. *)
Fixpoint keywordLoop (upperQuery : string) (keywords : list string) : option error :=
  match keywords with
  | [] => None
  | keyword :: rest =>
      if HasPrefix upperQuery keyword then Some (statementError keyword)
      else if Contains upperQuery (";" +:+ keyword)
              || Contains upperQuery ("; " +:+ keyword)
      then Some (statementError keyword)
      else keywordLoop upperQuery rest
  end.

(** The loop over [dangerousPatterns]. *)
Fixpoint patternLoop (upperQuery : string) (patterns : list string) : option error :=
  match patterns with
  | [] => None
  | pattern :: rest =>
      if Contains upperQuery pattern then Some (patternError pattern)
      else patternLoop upperQuery rest
  end.

Section ReadOnly.

(** [strings.ToUpper] and [strings.TrimSpace] of the Go library. *)
Variable ToUpper : string → string.
Variable TrimSpace : string → string.

(** [validateReadOnlyQuery]: [None] is the nil error. *)
Definition validateReadOnlyQuery (query : string) : option error :=
  let upperQuery := ToUpper (TrimSpace query) in
  match keywordLoop upperQuery writeKeywords with
  | Some err => Some err
  | None =>
      match patternLoop upperQuery dangerousPatterns with
      | Some err => Some err
      | None =>
          if Contains upperQuery " INTO " then
            if negb (Contains upperQuery "INSERT INTO") then
              Some (errorString
                "write operations are not allowed in read-only mode: detected 'INTO' clause")
            else None
          else None
      end
  end.

End ReadOnly.

(** The two library functions on ASCII text: letters [a]-[z] are raised, and
    the blanks Go trims in the ASCII range are removed from both ends. *)
Definition upperAscii (c : Ascii.ascii) : Ascii.ascii :=
  let n := Ascii.nat_of_ascii c in
  if (97 <=? n)%nat && (n <=? 122)%nat then Ascii.ascii_of_nat (n - 32) else c.

Fixpoint asciiToUpper (s : string) : string :=
  match s with
  | EmptyString => EmptyString
  | String c s' => String (upperAscii c) (asciiToUpper s')
  end.

Definition isSpaceAscii (c : Ascii.ascii) : bool :=
  let n := Ascii.nat_of_ascii c in
  ((9 <=? n)%nat && (n <=? 13)%nat) || (n =? 32)%nat.

Fixpoint trimLeft (s : string) : string :=
  match s with
  | EmptyString => EmptyString
  | String c s' => if isSpaceAscii c then trimLeft s' else s
  end.

Fixpoint trimRight (s : string) : string :=
  match s with
  | EmptyString => EmptyString
  | String c s' =>
      match trimRight s' with
      | EmptyString => if isSpaceAscii c then EmptyString else String c EmptyString
      | t => String c t
      end
  end.

Definition asciiTrimSpace (s : string) : string := trimRight (trimLeft s).

(** ** Facets and schema filters *)

Inductive facet : Type :=
| Tables | Columns | Relationships | PrimaryKeys | Indexes
| EnumValues | UniqueConstraints | TableStats.

(** The candidates of a strategy for a facet and a table argument (the
    tables and enum facets take no table). *)
Definition candidates (s : DatabaseStrategy) (f : facet) (table : string)
    : list queryWithArgs :=
  match f with
  | Tables => GetTablesQueries s
  | Columns => GetColumnsQueries s table
  | Relationships => GetRelationshipsQueries s table
  | PrimaryKeys => GetPrimaryKeysQueries s table
  | Indexes => GetIndexesQueries s table
  | EnumValues => GetEnumValuesQueries s
  | UniqueConstraints => GetUniqueConstraintsQueries s table
  | TableStats => GetTableStatsQueries s table
  end.

Definition strategies : list DatabaseStrategy :=
  [ PostgresStrategy.strategy; MySQLStrategy.strategy; GenericStrategy.strategy ].

(** The two filters the specification names: [schemaname] or [table_schema]
    equal to ['public'], or [table_schema] equal to [DATABASE()]. *)
Definition schemaRestricted (q : string) : bool :=
  Contains q "schemaname = 'public'" || Contains q "table_schema = 'public'"
  || Contains q "table_schema = DATABASE()".

(** The filters the code uses: the schema ['public'] also through
    [nspname], the current database also through [constraint_schema]. *)
Definition publicFilter (q : string) : bool :=
  Contains q "schemaname = 'public'" || Contains q "table_schema = 'public'"
  || Contains q "nspname = 'public'".

Definition currentDatabaseFilter (q : string) : bool :=
  Contains q "table_schema = DATABASE()"
  || Contains q "constraint_schema = DATABASE()".

(** ** Placeholders and table scope of a candidate *)

(** The number of occurrences of a character in a text. *)
Fixpoint countChar (c : Ascii.ascii) (s : string) : nat :=
  match s with
  | EmptyString => 0
  | String d s' => (if Ascii.eqb c d then 1 else 0) + countChar c s'
  end.

Definition questionMark : Ascii.ascii := Ascii.ascii_of_nat 63.

(** The arguments fit the placeholders of the text: one argument for a
    text that uses the numbered placeholder [$1] (however often), else one
    argument for each [?]. *)
Definition placeholdersMatch (q : queryWithArgs) : bool :=
  if Contains (query q) "$1" then (length (args q) =? 1)%nat
  else (countChar questionMark (query q) =? length (args q))%nat.

(** The facets whose operation takes an optional table. *)
Definition tableScoped (f : facet) : bool :=
  match f with
  | Relationships | PrimaryKeys | Indexes | UniqueConstraints | TableStats => true
  | Tables | Columns | EnumValues => false
  end.

(** The candidate that lists columns with [SHOW COLUMNS]. *)
Definition showColumns (q : queryWithArgs) : bool :=
  HasPrefix (query q) "SHOW COLUMNS".

Section Database.

(** The driver's cursor type [*sql.Rows], and [rowsToMaps], which reads a
    cursor into rows or fails; both live outside the package's schema
    files. *)
Context {Rows : Type}.
Variable rowsToMaps : Rows → result (list Row).

(** [db.Database]: the driver name and the query operation. *)
Record Database : Type := mkDatabase {
  DriverName : string;
  Query : queryWithArgs → result Rows;
  QueryTimeout : Z
}.

Definition db_Query (db : Database) (q : queryWithArgs) : M (result Rows) :=
  (Query db q, [q]).

(** The candidate fails on [db]. *)
Definition fails (db : Database) (q : queryWithArgs) : Prop := is_Err (Query db q).

(** The error of a failing candidate. *)
Definition errorOf (db : Database) (q : queryWithArgs) : option error :=
  match Query db q with
  | Err e => Some e
  | Ok _ => None
  end.

(** ** executeWithFallbacks *)

(** The [for] loop of [executeWithFallbacks]: [Ok rows] is the early return,
    [Err lastErr] falls out of the loop with the last error seen. *)
Fixpoint fallback_loop (db : Database) (queries : list queryWithArgs)
    (lastErr : option error) : M (Rows + option error) :=
  match queries with
  | [] => ret (inr lastErr)
  | q :: rest =>
      let* r := db_Query db q in
      match r with
      | Ok rows => ret (inl rows)
      | Err err => fallback_loop db rest (Some err)
      end
  end.

Definition executeWithFallbacks (db : Database) (queries : list queryWithArgs)
    (operationName : string) : M (result Rows) :=
  let* r := fallback_loop db queries None in
  match r with
  | inl rows => ret (Ok rows)
  | inr lastErr =>
      ret (Err (Errorf_w_nil
        (operationName +:+ " failed after trying " +:+
         pretty (length queries) +:+ " fallback queries: ") lastErr))
  end.

(** ** Facet operations *)

(** [getTables]. *)
Definition getTables (db : Database) : M (result value) :=
  let driverName := DriverName db in
  let dbType := driverName in
  let strategy := NewDatabaseStrategy driverName in
  let queries := GetTablesQueries strategy in
  let* r := executeWithFallbacks db queries "getTables" in
  match r with
  | Err err => ret (Err (Errorf_w "failed to get tables: " err))
  | Ok rows =>
      match rowsToMaps rows with
      | Err err => ret (Err (Errorf_w "failed to process tables: " err))
      | Ok results =>
          ret (Ok (VMap {[ "tables" := VRows results;
                           "dbType" := VString dbType ]}))
      end
  end.

(** [getColumns]. *)
Definition getColumns (db : Database) (table : string) : M (result value) :=
  let driverName := DriverName db in
  let dbType := driverName in
  let strategy := NewDatabaseStrategy driverName in
  let queries := GetColumnsQueries strategy table in
  let* r := executeWithFallbacks db queries ("getColumns[" +:+ table +:+ "]") in
  match r with
  | Err err =>
      ret (Err (Errorf_w ("failed to get columns for table " +:+ table +:+ ": ") err))
  | Ok rows =>
      match rowsToMaps rows with
      | Err err => ret (Err (Errorf_w "failed to process columns: " err))
      | Ok results =>
          ret (Ok (VMap {[ "table" := VString table;
                           "columns" := VRows results;
                           "dbType" := VString dbType ]}))
      end
  end.

(** [getRelationships]. *)
Definition getRelationships (db : Database) (table : string) : M (result value) :=
  let driverName := DriverName db in
  let dbType := driverName in
  let strategy := NewDatabaseStrategy driverName in
  let queries := GetRelationshipsQueries strategy table in
  let* r := executeWithFallbacks db queries "getRelationships" in
  match r with
  | Err err =>
      ret (Err (Errorf_w ("failed to get relationships for table " +:+ table +:+ ": ") err))
  | Ok rows =>
      match rowsToMaps rows with
      | Err err => ret (Err (Errorf_w "failed to process relationships: " err))
      | Ok results =>
          ret (Ok (VMap {[ "relationships" := VRows results;
                           "dbType" := VString dbType;
                           "table" := VString table ]}))
      end
  end.

(** [getPrimaryKeys]. *)
Definition getPrimaryKeys (db : Database) (table : string) : M (result value) :=
  let driverName := DriverName db in
  let dbType := driverName in
  let strategy := NewDatabaseStrategy driverName in
  let queries := GetPrimaryKeysQueries strategy table in
  let* r := executeWithFallbacks db queries "getPrimaryKeys" in
  match r with
  | Err err =>
      ret (Err (Errorf_w ("failed to get primary keys for table " +:+ table +:+ ": ") err))
  | Ok rows =>
      match rowsToMaps rows with
      | Err err => ret (Err (Errorf_w "failed to process primary keys: " err))
      | Ok results =>
          ret (Ok (VMap {[ "primary_keys" := VRows results;
                           "dbType" := VString dbType;
                           "table" := VString table ]}))
      end
  end.

(** [getIndexes]. *)
Definition getIndexes (db : Database) (table : string) : M (result value) :=
  let driverName := DriverName db in
  let dbType := driverName in
  let strategy := NewDatabaseStrategy driverName in
  let queries := GetIndexesQueries strategy table in
  let* r := executeWithFallbacks db queries "getIndexes" in
  match r with
  | Err err =>
      ret (Err (Errorf_w ("failed to get indexes for table " +:+ table +:+ ": ") err))
  | Ok rows =>
      match rowsToMaps rows with
      | Err err => ret (Err (Errorf_w "failed to process indexes: " err))
      | Ok results =>
          ret (Ok (VMap {[ "indexes" := VRows results;
                           "dbType" := VString dbType;
                           "table" := VString table ]}))
      end
  end.

(** [getEnumValues]: a failure of every candidate is not an error. *)
Definition getEnumValues (db : Database) : M (result value) :=
  let driverName := DriverName db in
  let dbType := driverName in
  let strategy := NewDatabaseStrategy driverName in
  let queries := GetEnumValuesQueries strategy in
  let* r := executeWithFallbacks db queries "getEnumValues" in
  match r with
  | Err err =>
      ret (Ok (VMap {[ "enums" := VRows [];
                       "dbType" := VString dbType ]}))
  | Ok rows =>
      match rowsToMaps rows with
      | Err err => ret (Err (Errorf_w "failed to process enum values: " err))
      | Ok results =>
          ret (Ok (VMap {[ "enums" := VRows results;
                           "dbType" := VString dbType ]}))
      end
  end.

(** [getUniqueConstraints]. *)
Definition getUniqueConstraints (db : Database) (table : string) : M (result value) :=
  let driverName := DriverName db in
  let dbType := driverName in
  let strategy := NewDatabaseStrategy driverName in
  let queries := GetUniqueConstraintsQueries strategy table in
  let* r := executeWithFallbacks db queries "getUniqueConstraints" in
  match r with
  | Err err => ret (Err (Errorf_w "failed to get unique constraints: " err))
  | Ok rows =>
      match rowsToMaps rows with
      | Err err => ret (Err (Errorf_w "failed to process unique constraints: " err))
      | Ok results =>
          ret (Ok (VMap {[ "unique_constraints" := VRows results;
                           "dbType" := VString dbType;
                           "table" := VString table ]}))
      end
  end.

(** [getTableStats]: a failure of every candidate is not an error. *)
Definition getTableStats (db : Database) (table : string) : M (result value) :=
  let driverName := DriverName db in
  let dbType := driverName in
  let strategy := NewDatabaseStrategy driverName in
  let queries := GetTableStatsQueries strategy table in
  let* r := executeWithFallbacks db queries "getTableStats" in
  match r with
  | Err err =>
      ret (Ok (VMap {[ "stats" := VRows [];
                       "dbType" := VString dbType;
                       "table" := VString table ]}))
  | Ok rows =>
      match rowsToMaps rows with
      | Err err => ret (Err (Errorf_w "failed to process table stats: " err))
      | Ok results =>
          ret (Ok (VMap {[ "stats" := VRows results;
                           "dbType" := VString dbType;
                           "table" := VString table ]}))
      end
  end.

(** ** Dynamic access *)

(** [safeGetMap]. *)
Definition safeGetMap (obj : value) : result (gmap string value) :=
  match obj with
  | VNil => Err (errorString "nil value cannot be converted to map")
  | VMap mapVal => Ok mapVal
  | _ =>
      Err (errorString
        ("value is not a map[string]interface{}: " +:+ typeName obj))
  end.

(** [safeGetString]. *)
Definition safeGetString (m : gmap string value) (key : string) : result string :=
  match m !! key with
  | None => Err (errorString ("key " +:+ quoted key +:+ " not found in map"))
  | Some (VString strVal) => Ok strVal
  | Some val =>
      Err (errorString
        ("value for key " +:+ quoted key +:+ " is not a string: " +:+ typeName val))
  end.

(** [m, _ := safeGetMap(obj)]: the error is dropped and a nil map is read. *)
Definition mapOrNil (obj : value) : gmap string value :=
  match safeGetMap obj with
  | Ok m => m
  | Err _ => ∅
  end.

(** [m[key].([]map[string]interface{})]. *)
Definition asRows (v : option value) : option (list Row) :=
  match v with
  | Some (VRows l) => Some l
  | _ => None
  end.

(** [m[key].(string)]. *)
Definition asString (v : option value) : option string :=
  match v with
  | Some (VString s) => Some s
  | _ => None
  end.

(** ** getFullSchema *)

(** [enumsByType[enumName] = append(enumsByType[enumName], enumValue)] for a
    row that has both keys as strings. *)
Definition addEnum (enumsByType : gmap string (list string)) (enum : Row)
    : gmap string (list string) :=
  match asString (enum !! "enum_name") with
  | Some enumName =>
      match asString (enum !! "enum_value") with
      | Some enumValue =>
          <[enumName := default [] (enumsByType !! enumName) ++ [enumValue]]>
            enumsByType
      | None => enumsByType
      end
  | None => enumsByType
  end.

Definition enumValuesOf (enumsResult : result value) : list Row :=
  match enumsResult with
  | Err _ => []
  | Ok enumsResult =>
      let enumsMap := mapOrNil enumsResult in
      default [] (asRows (enumsMap !! "enums"))
  end.

Definition enumsByTypeOf (enumsResult : result value) : gmap string (list string) :=
  match enumsResult with
  | Err _ => ∅
  | Ok _ => foldl addEnum ∅ (enumValuesOf enumsResult)
  end.

(** [statsByTable[tableName] = stat]. *)
Definition addStat (statsByTable : gmap string Row) (stat : Row) : gmap string Row :=
  match asString (stat !! "table_name") with
  | Some tableName => <[tableName := stat]> statsByTable
  | None => statsByTable
  end.

Definition statsByTableOf (statsResult : result value) : gmap string Row :=
  match statsResult with
  | Err _ => ∅
  | Ok statsResult =>
      let statsMap := mapOrNil statsResult in
      match asRows (statsMap !! "stats") with
      | Some stats => foldl addStat ∅ stats
      | None => ∅
      end
  end.

(** The body of the loop over a table's columns: the row [columns[i]] after
    the enum values are attached. *)
Definition enhanceColumn (enumsByType : gmap string (list string)) (column : Row) : Row :=
  let dataType := default "" (asString (column !! "data_type")) in
  let byDataType :=
    match enumsByType !! dataType with
    | Some enumVals => <["enum_values" := VStrings enumVals]> column
    | None => column
    end in
  match asString (column !! "udt_name") with
  | Some udtName =>
      if decide (dataType = "USER-DEFINED") then
        match enumsByType !! udtName with
        | Some enumVals =>
            <["enum_type" := VString udtName]>
              (<["enum_values" := VStrings enumVals]> column)
        | None => column
        end
      else byDataType
  | None => byDataType
  end.

(** The rows of the column maps are updated in place, so the slice held by
    [columnsMap["columns"]] is the enhanced one. *)
Definition enhanceColumns (enumsByType : gmap string (list string))
    (columnsMap : gmap string value) : gmap string value :=
  match asRows (columnsMap !! "columns") with
  | Some columns =>
      <["columns" := VRows (enhanceColumn enumsByType <$> columns)]> columnsMap
  | None => columnsMap
  end.

(** A supplementary facet inside [getFullSchema]: empty on error, else the
    rows under [key] (primary keys, indexes, unique constraints and the
    global relationships are all read this way). *)
Definition rowsOrEmpty (key : string) (r : result value) : list Row :=
  match r with
  | Err _ => []
  | Ok v => default [] (asRows (mapOrNil v !! key))
  end.

(** The loop over [tablesSlice]; [detailedSchema] is the map built so far. *)
Fixpoint tablesLoop (db : Database) (enumsByType : gmap string (list string))
    (statsByTable : gmap string Row) (tablesSlice : list Row)
    (detailedSchema : gmap string value) : M (result (gmap string value)) :=
  match tablesSlice with
  | [] => ret (Ok detailedSchema)
  | tableInfo :: rest =>
      match safeGetString tableInfo "table_name" with
      | Err err => ret (Err (Errorf_w "invalid table info: " err))
      | Ok tableName =>
          let* columnsResult := getColumns db tableName in
          match columnsResult with
          | Err columnsErr =>
              tablesLoop db enumsByType statsByTable rest detailedSchema
          | Ok columnsResult =>
              let columnsMap := enhanceColumns enumsByType (mapOrNil columnsResult) in
              let* primaryKeysResult := getPrimaryKeys db tableName in
              let primaryKeys := rowsOrEmpty "primary_keys" primaryKeysResult in
              let* indexesResult := getIndexes db tableName in
              let indexes := rowsOrEmpty "indexes" indexesResult in
              let* uniqueConstraintsResult := getUniqueConstraints db tableName in
              let uniqueConstraints :=
                rowsOrEmpty "unique_constraints" uniqueConstraintsResult in
              let tableStats := default ∅ (statsByTable !! tableName) in
              tablesLoop db enumsByType statsByTable rest
                (<[tableName := VMap {[
                     "columns" := default VNil (columnsMap !! "columns");
                     "primary_keys" := VRows primaryKeys;
                     "indexes" := VRows indexes;
                     "unique_constraints" := VRows uniqueConstraints;
                     "statistics" := VMap tableStats ]}]> detailedSchema)
          end
      end
  end.

(** [fksByTable[tableName] = append(fksByTable[tableName], fk)]. *)
Definition addForeignKey (fksByTable : gmap string (list Row)) (fk : Row)
    : gmap string (list Row) :=
  match asString (fk !! "table_name") with
  | Some tableName =>
      <[tableName := default [] (fksByTable !! tableName) ++ [fk]]> fksByTable
  | None => fksByTable
  end.

(** [schema["foreign_keys"] = fksByTable[tableName]], in place.  For a table
    without foreign-key rows the source stores the nil slice of the absent
    key; with the convention above it is the list without rows. *)
Definition attachForeignKeys (fksByTable : gmap string (list Row))
    (tableName : string) (tableSchema : value) : option value :=
  match tableSchema with
  | VMap schema =>
      Some (VMap (<["foreign_keys" := VRows (default [] (fksByTable !! tableName))]> schema))
  | _ => Some tableSchema
  end.

Definition getFullSchema (db : Database) : M (result value) :=
  let* tablesResult := getTables db in
  match tablesResult with
  | Err err => ret (Err (Errorf_w "failed to get tables: " err))
  | Ok tablesResult =>
  match safeGetMap tablesResult with
  | Err err => ret (Err (Errorf_w "invalid tables result: " err))
  | Ok tablesMap =>
  match asRows (tablesMap !! "tables") with
  | None => ret (Err (errorString "invalid tables data format"))
  | Some tablesSlice =>
      let* enumsResult := getEnumValues db in
      let enumValues := enumValuesOf enumsResult in
      let enumsByType := enumsByTypeOf enumsResult in
      let* statsResult := getTableStats db "" in
      let statsByTable := statsByTableOf statsResult in
      let* loop := tablesLoop db enumsByType statsByTable tablesSlice ∅ in
      match loop with
      | Err err => ret (Err err)
      | Ok detailedSchema =>
          let* relationships := getRelationships db "" in
          let foreignKeys := rowsOrEmpty "relationships" relationships in
          let fksByTable := foldl addForeignKey ∅ foreignKeys in
          let detailedSchema :=
            map_imap (attachForeignKeys fksByTable) detailedSchema in
          ret (Ok (VMap {[
            "tables" := VRows tablesSlice;
            "detailed_schema" := VMap detailedSchema;
            "foreign_keys" := VRows foreignKeys;
            "enum_types" := VEnums enumsByType;
            "enum_values" := VRows enumValues ]}))
      end
  end end end.

(** ** What the assembly computes, without the trace *)

(** The table list that [getFullSchema] iterates over, when [getTables]
    succeeds. *)
Definition tableListOf (db : Database) : option (list Row) :=
  match value_of (getTables db) with
  | Ok tablesResult => asRows (mapOrNil tablesResult !! "tables")
  | Err _ => None
  end.

(** The row names a table. *)
Definition named (tableInfo : Row) : Prop :=
  is_Ok (safeGetString tableInfo "table_name").

(** The table list has a row for [tableName]. *)
Definition listed (tablesSlice : list Row) (tableName : string) : Prop :=
  ∃ tableInfo, tableInfo ∈ tablesSlice ∧
    safeGetString tableInfo "table_name" = Ok tableName.

(** The entry that one iteration of the loop stores for [tableName] when
    its columns fetch returned [columnsResult]. *)
Definition tableSchemaOf (db : Database) (enumsByType : gmap string (list string))
    (statsByTable : gmap string Row) (tableName : string)
    (columnsResult : value) : value :=
  let columnsMap := enhanceColumns enumsByType (mapOrNil columnsResult) in
  VMap {[
    "columns" := default VNil (columnsMap !! "columns");
    "primary_keys" :=
      VRows (rowsOrEmpty "primary_keys" (value_of (getPrimaryKeys db tableName)));
    "indexes" :=
      VRows (rowsOrEmpty "indexes" (value_of (getIndexes db tableName)));
    "unique_constraints" :=
      VRows (rowsOrEmpty "unique_constraints"
               (value_of (getUniqueConstraints db tableName)));
    "statistics" := VMap (default ∅ (statsByTable !! tableName)) ]}.

(** The enum catalog, the statistics index and the foreign keys by table
    that [getFullSchema] builds on [db]. *)
Definition enumCatalogOf (db : Database) : gmap string (list string) :=
  enumsByTypeOf (value_of (getEnumValues db)).

Definition statsIndexOf (db : Database) : gmap string Row :=
  statsByTableOf (value_of (getTableStats db "")).

Definition foreignKeysOf (db : Database) : list Row :=
  rowsOrEmpty "relationships" (value_of (getRelationships db "")).

(** The document [getFullSchema] returns once the loop over the table list
    has built [detailed]. *)
Definition documentOf (db : Database) (tablesSlice : list Row)
    (detailed : gmap string value) : gmap string value :=
  {[ "tables" := VRows tablesSlice;
     "detailed_schema" :=
       VMap (map_imap
               (attachForeignKeys (foldl addForeignKey ∅ (foreignKeysOf db)))
               detailed);
     "foreign_keys" := VRows (foreignKeysOf db);
     "enum_types" := VEnums (enumCatalogOf db);
     "enum_values" := VRows (enumValuesOf (value_of (getEnumValues db))) ]}.

(** ** The tool handlers *)

(** [db.Manager]: the open connections by identifier. *)
Record Manager : Type := mkManager {
  connections : gmap string Database
}.

(** [Manager.GetDatabase]. *)
Definition GetDatabase (m : Manager) (id : string) : result Database :=
  match connections m !! id with
  | None => Err (errorString ("database connection " +:+ id +:+ " not found"))
  | Some db => Ok db
  end.

Section Handlers.

(** The package variable [dbManager] (nil until initialised), the parameter
    readers and the performance analyzer's [TrackQuery], which are declared
    in other files of the package; and the two functions of Go's [strings]
    that the read-only guard calls. *)
Variable dbManager : option Manager.
Variable getStringParam : gmap string value → string → string * bool.
Variable getArrayParam : gmap string value → string → list value * bool.
Variable TrackQuery :
  string → list value → M (result value) → M (result value).
Variable ToUpper : string → string.
Variable TrimSpace : string → string.

(** [handleSchemaExplorer]. *)
Definition handleSchemaExplorer (params : gmap string value) : M (result value) :=
  match dbManager with
  | None => ret (Err (errorString "database manager not initialized"))
  | Some dbManager =>
      let '(component, ok) := getStringParam params "component" in
      if negb ok then ret (Err (errorString "component parameter is required"))
      else
      let '(databaseID, ok) := getStringParam params "database" in
      if negb ok then ret (Err (errorString "database parameter is required"))
      else
      match GetDatabase dbManager databaseID with
      | Err err => ret (Err (Errorf_w "failed to get database: " err))
      | Ok db =>
          let table := fst (getStringParam params "table") in
          if decide (component = "tables") then getTables db
          else if decide (component = "columns") then
            if decide (table = "") then
              ret (Err (errorString
                "table parameter is required for columns component"))
            else getColumns db table
          else if decide (component = "relationships") then
            getRelationships db table
          else if decide (component = "full") then getFullSchema db
          else ret (Err (errorString ("invalid component: " +:+ component)))
      end
  end.

(** [handleQuery]. *)
Definition handleQuery (params : gmap string value) : M (result value) :=
  match dbManager with
  | None => ret (Err (errorString "database manager not initialized"))
  | Some dbManager =>
      let '(query, ok) := getStringParam params "query" in
      if negb ok then ret (Err (errorString "query parameter is required"))
      else
      match validateReadOnlyQuery ToUpper TrimSpace query with
      | Some err => ret (Err err)
      | None =>
          let '(databaseID, ok) := getStringParam params "database" in
          if negb ok then ret (Err (errorString "database parameter is required"))
          else
          match GetDatabase dbManager databaseID with
          | Err err => ret (Err (Errorf_w "failed to get database: " err))
          | Ok db =>
              let queryParams :=
                let '(paramsArray, ok) := getArrayParam params "params" in
                if ok then paramsArray else [] in
              TrackQuery query queryParams
                (let* r := db_Query db (mkQuery query queryParams) in
                 match r with
                 | Err innerErr =>
                     ret (Err (Errorf_w "failed to execute query: " innerErr))
                 | Ok rows =>
                     match rowsToMaps rows with
                     | Err innerErr =>
                         ret (Err (Errorf_w "failed to process query results: " innerErr))
                     | Ok results =>
                         ret (Ok (VMap {[
                           "results" := VRows results;
                           "query" := VString query;
                           "params" := VList queryParams;
                           "rowCount" := VInt (Z.of_nat (length results)) ]}))
                     end
                 end)
          end
      end
  end.

End Handlers.

End Database.

(** ** Correlation by name *)

(** The labels of the enum rows named [enumName], in row order. *)
Definition enumLabels (enumName : string) (enumValues : list Row) : list string :=
  omap (λ enum : Row,
          if decide (asString (enum !! "enum_name") = Some enumName)
          then asString (enum !! "enum_value") else None) enumValues.

(** The rows whose [table_name] is [tableName], in row order. *)
Definition rowsOfTable (tableName : string) (rows : list Row) : list Row :=
  filter (λ row : Row, asString (row !! "table_name") = Some tableName) rows.

(** The six keys of a table's entry in [detailed_schema]. *)
Definition tableSchemaKeys : gset string :=
  {[ "columns"; "primary_keys"; "indexes"; "unique_constraints";
     "statistics"; "foreign_keys" ]}.

(** The five keys of the schema document. *)
Definition documentKeys : gset string :=
  {[ "tables"; "detailed_schema"; "foreign_keys"; "enum_types"; "enum_values" ]}.

(** ** The schema cache *)

(** Instants are nanoseconds on the process clock and a [time.Duration] is
    a signed 64-bit count of nanoseconds; [Time.Sub] saturates at the ends
    of that range.  The mutex is not modelled: each operation is atomic. *)
Definition maxDuration : Z := 2 ^ 63 - 1.
Definition minDuration : Z := - 2 ^ 63.

Definition Sub (t u : Z) : Z :=
  let d := (t - u)%Z in
  if (maxDuration <? d)%Z then maxDuration
  else if (d <? minDuration)%Z then minDuration
  else d.

Record schemaCacheEntry : Type := mkEntry {
  schema : value;
  timestamp : Z
}.

Record SchemaCache : Type := mkCache {
  entries : gmap string schemaCacheEntry;
  ttl : Z
}.

(** A 64-bit signed product, as [time.Duration(n) * time.Second]. *)
Definition wrap64 (z : Z) : Z := ((z + 2 ^ 63) `mod` 2 ^ 64 - 2 ^ 63)%Z.

Definition Second : Z := 1000000000.
Definition Minute : Z := 60 * Second.

Section CacheTTL.

(** [strconv.Atoi] of the Go library: [None] is its error. *)
Variable Atoi : string → option Z.

(** [getSchemaCacheTTL], given the value of [SCHEMA_CACHE_TTL] (empty when
    unset). *)
Definition getSchemaCacheTTL (ttlStr : string) : Z :=
  if decide (ttlStr = "") then (5 * Minute)%Z
  else
    match Atoi ttlStr with
    | None => (5 * Minute)%Z
    | Some ttlSeconds => wrap64 (ttlSeconds * Second)
    end.

End CacheTTL.

(** [InitSchemaCache], given the configured time-to-live. *)
Definition InitSchemaCache (ttl : Z) : SchemaCache := mkCache ∅ ttl.

(** [SchemaCache.Get] when the clock reads [now]. *)
Definition SchemaCache_Get (c : SchemaCache) (now : Z) (dbID : string) : value * bool :=
  match entries c !! dbID with
  | None => (VNil, false)
  | Some entry =>
      if (ttl c <? Sub now (timestamp entry))%Z then (VNil, false)
      else (schema entry, true)
  end.

(** [SchemaCache.Set] when the clock reads [now]. *)
Definition SchemaCache_Set (c : SchemaCache) (now : Z) (dbID : string)
    (schema : value) : SchemaCache :=
  mkCache (<[dbID := mkEntry schema now]> (entries c)) (ttl c).

(** [SchemaCache.Invalidate]. *)
Definition SchemaCache_Invalidate (c : SchemaCache) (dbID : string) : SchemaCache :=
  mkCache (delete dbID (entries c)) (ttl c).

(** [SchemaCache.InvalidateAll]. *)
Definition SchemaCache_InvalidateAll (c : SchemaCache) : SchemaCache :=
  mkCache ∅ (ttl c).

(** [SchemaCache.CleanupExpired] when the clock reads [now]. *)
Definition SchemaCache_CleanupExpired (c : SchemaCache) (now : Z) : SchemaCache :=
  mkCache
    (filter (λ kv, ¬ (ttl c < Sub now (timestamp kv.2))%Z) (entries c))
    (ttl c).

(** The age of the entry stored for [dbID], as [Get] measures it. *)
Definition entryAge (c : SchemaCache) (now : Z) (dbID : string) : option Z :=
  (λ entry, Sub now (timestamp entry)) <$> entries c !! dbID.

(** ** Sample databases *)

(** A cursor that already holds its rows, read without error. *)
Definition sampleRowsToMaps (rows : list Row) : result (list Row) := Ok rows.

Definition denied : error := errorString "permission denied".

(** A PostgreSQL database with the tables [users] and [orders]: the columns
    of [orders] cannot be read, and the enum, statistics and every other
    supplementary query fails. *)
Definition shopQuery (q : queryWithArgs) : result (list Row) :=
  if Contains (query q) "FROM pg_catalog.pg_tables" then
    Ok [ {[ "table_name" := VString "users" ]};
         {[ "table_name" := VString "orders" ]} ]
  else if Contains (query q) "FROM information_schema.columns" then
    match args q with
    | [VString "users"] =>
        Ok [ {[ "column_name" := VString "id"; "data_type" := VString "integer";
                "udt_name" := VString "int4" ]} ]
    | _ => Err denied
    end
  else Err denied.

Definition shopDB : Database := mkDatabase "postgres" shopQuery 30.

(** The same tables, with an enum type [order_status] used by a column of
    [orders]; every query of the PostgreSQL strategy that reads the
    information schema or [pg_enum] succeeds. *)
Definition enumQuery (q : queryWithArgs) : result (list Row) :=
  if Contains (query q) "FROM pg_catalog.pg_tables" then
    Ok [ {[ "table_name" := VString "orders" ]} ]
  else if Contains (query q) "FROM information_schema.columns" then
    Ok [ {[ "column_name" := VString "status";
            "data_type" := VString "USER-DEFINED";
            "udt_name" := VString "order_status" ]} ]
  else if Contains (query q) "JOIN pg_enum" then
    Ok [ {[ "enum_name" := VString "order_status"; "enum_value" := VString "pending" ]};
         {[ "enum_name" := VString "order_status"; "enum_value" := VString "shipped" ]};
         {[ "enum_name" := VString "order_status"; "enum_value" := VString "delivered" ]} ]
  else Err denied.

Definition enumDB : Database := mkDatabase "postgres" enumQuery 30.

(** A MySQL database on which only [SHOW TABLES] works: its result column
    is named after the database, not [table_name]. *)
Definition showTablesQuery (q : queryWithArgs) : result (list Row) :=
  if String.eqb (query q) "SHOW TABLES" then
    Ok [ {[ "Tables_in_shop" := VString "users" ]} ]
  else Err denied.

Definition showTablesDB : Database := mkDatabase "mysql" showTablesQuery 30.

(** Five minutes, the default time-to-live, in nanoseconds. *)
Definition fiveMinutes : Z := 5 * Minute.

(** A manager holding the shop database, and plain readers of the tool
    parameters. *)
Definition shopManager : Manager := mkManager {[ "shop" := shopDB ]}.

Definition readString (params : gmap string value) (key : string) : string * bool :=
  match params !! key with
  | Some (VString s) => (s, true)
  | _ => ("", false)
  end.

Definition readArray (params : gmap string value) (key : string) : list value * bool :=
  match params !! key with
  | Some (VList l) => (l, true)
  | _ => ([], false)
  end.

Definition runTracked (query : string) (params : list value)
    (fn : M (result value)) : M (result value) := fn.

(** The first candidate of a facet. *)
Definition firstCandidate (s : DatabaseStrategy) (f : facet) (table : string)
    : queryWithArgs :=
  default (mkQuery "" []) (head (candidates s f table)).

(** A PostgreSQL database that refuses every query. *)
Definition downDB : Database :=
  mkDatabase "postgres" (λ _ : queryWithArgs, @Err (list Row) denied) 30.

(** A MySQL database with one table and one enum column: the enum rows have
    the columns of the MySQL candidate. *)
Definition mysqlEnumQuery (q : queryWithArgs) : result (list Row) :=
  if Contains (query q) "SELECT table_name FROM information_schema.tables" then
    Ok [ {[ "table_name" := VString "orders" ]} ]
  else if Contains (query q) "c.column_type LIKE 'enum(%'" then
    Ok [ {[ "table_name" := VString "orders";
            "enum_name" := VString "status";
            "enum_definition" := VString "enum('pending','shipped')" ]} ]
  else Err denied.

Definition mysqlEnumDB : Database := mkDatabase "mysql" mysqlEnumQuery 30.

(** The two tables of the shop, as the tables facet returns them. *)
Definition shopTables : list Row :=
  [ {[ "table_name" := VString "users" ]};
    {[ "table_name" := VString "orders" ]} ].

(** A reader of decimal settings that knows one value. *)
Definition atoiSample (s : string) : option Z :=
  if String.eqb s "60" then Some 60%Z else None.

(** The shop's table list followed by a row whose [table_name] is NULL. *)
Definition nullRowQuery (q : queryWithArgs) : result (list Row) :=
  if Contains (query q) "FROM pg_catalog.pg_tables" then
    Ok [ {[ "table_name" := VString "users" ]};
         {[ "table_name" := VString "orders" ]};
         {[ "table_name" := VNil ]} ]
  else if Contains (query q) "FROM information_schema.columns" then
    match args q with
    | [VString "users"] =>
        Ok [ {[ "column_name" := VString "id"; "data_type" := VString "integer";
                "udt_name" := VString "int4" ]} ]
    | _ => Err denied
    end
  else Err denied.

Definition nullRowDB : Database := mkDatabase "postgres" nullRowQuery 30.

(** A MySQL database that answers only [SHOW TABLES] and
    [SHOW COLUMNS FROM users]. *)
Definition showShopQuery (q : queryWithArgs) : result (list Row) :=
  if String.eqb (query q) "SHOW TABLES" then
    Ok [ {[ "Tables_in_shop" := VString "users" ]};
         {[ "Tables_in_shop" := VString "orders" ]} ]
  else if String.eqb (query q) "SHOW COLUMNS FROM users" then
    Ok [ {[ "Field" := VString "id"; "Type" := VString "int" ]} ]
  else Err denied.

Definition showShopDB : Database := mkDatabase "mysql" showShopQuery 30.

(** The shop with its foreign keys: both go out of [orders]. *)
Definition ordersUserKey : Row :=
  {[ "constraint_name" := VString "orders_user_fk";
     "table_name" := VString "orders";
     "column_name" := VString "user_id";
     "foreign_table_name" := VString "users";
     "foreign_column_name" := VString "id" ]}.

Definition ordersProductKey : Row :=
  {[ "constraint_name" := VString "orders_product_fk";
     "table_name" := VString "orders";
     "column_name" := VString "product_id";
     "foreign_table_name" := VString "products";
     "foreign_column_name" := VString "id" ]}.

Definition fkQuery (q : queryWithArgs) : result (list Row) :=
  if Contains (query q) "FROM pg_catalog.pg_tables" then Ok shopTables
  else if Contains (query q) "FROM information_schema.columns" then
    Ok [ {[ "column_name" := VString "id"; "data_type" := VString "integer";
            "udt_name" := VString "int4" ]} ]
  else if Contains (query q) "tc.constraint_type = 'FOREIGN KEY'" then
    Ok [ ordersUserKey; ordersProductKey ]
  else Err denied.

Definition fkDB : Database := mkDatabase "postgres" fkQuery 30.

(** A reader of decimal settings that knows minus one. *)
Definition atoiMinusOne (s : string) : option Z :=
  if String.eqb s "-1" then Some (-1)%Z else None.

(** * Properties *)

(** ** The trace monad *)

Lemma value_of_bind {A B} (m : M A) (f : A → M B) :
  value_of (bind m f) = value_of (f (value_of m)).
Proof.
  unfold value_of, bind. destruct m as [a t1]; simpl.
  by destruct (f a).
Qed.

Lemma trace_of_bind {A B} (m : M A) (f : A → M B) :
  trace_of (bind m f) = trace_of m ++ trace_of (f (value_of m)).
Proof.
  unfold trace_of, value_of, bind. destruct m as [a t1]; simpl.
  by destruct (f a).
Qed.

(** ** Fallback query executor *)

Section FallbackProperties.

Context {Rows : Type}.
Implicit Types (db : @Database Rows) (qs : list queryWithArgs).

Lemma fallback_loop_all_fail db qs lastErr :
  Forall (fails db) qs →
  fallback_loop db qs lastErr =
    (inr (from_option (errorOf db) lastErr (last qs)), qs).
Proof.
  intros Hall. revert lastErr.
  induction Hall as [|q rest [e He] _ IH]; intros lastErr; [done|].
  cbn [fallback_loop]. unfold db_Query, bind. rewrite He, (IH (Some e)).
  simpl. f_equal. f_equal.
  destruct rest as [|q' rest']; simpl.
  - unfold errorOf. by rewrite He.
  - destruct (last (q' :: rest')) eqn:Hlast; [done|].
    by apply last_None in Hlast.
Qed.

Lemma fallback_loop_first_ok db pre q post rows lastErr :
  Forall (fails db) pre →
  Query db q = Ok rows →
  fallback_loop db (pre ++ q :: post) lastErr = (inl rows, pre ++ [q]).
Proof.
  intros Hall Hq. revert lastErr.
  induction Hall as [|p rest [e He] _ IH]; intros lastErr.
  - simpl. unfold db_Query, bind. by rewrite Hq.
  - cbn [app fallback_loop]. unfold db_Query, bind.
    by rewrite He, (IH (Some e)).
Qed.

(** C3. Fallback exhaustion: when every one of the N >= 1 candidates fails,
    the executor sends exactly those N queries, in order, and returns an
    error that wraps the error of the last candidate and whose message
    gives the number N of candidates tried. *)
Theorem executeWithFallbacks_exhaustion db qs operationName :
  qs ≠ [] →
  Forall (fails db) qs →
  ∃ qlast lastErr e,
    last qs = Some qlast ∧
    Query db qlast = Err lastErr ∧
    trace_of (executeWithFallbacks db qs operationName) = qs ∧
    value_of (executeWithFallbacks db qs operationName) = Err e ∧
    Unwrap e = Some lastErr ∧
    Error e =
      (operationName +:+ " failed after trying " +:+ pretty (length qs) +:+
       " fallback queries: ") +:+ Error lastErr.
Proof.
  intros Hne Hall.
  destruct (last qs) as [qlast|] eqn:Hlast;
    [|by apply last_None in Hlast].
  assert (Hin : qlast ∈ qs).
  { apply last_Some in Hlast as [l' ->]. set_solver. }
  destruct (proj1 (Forall_forall _ _) Hall _ Hin) as [lastErr HlastErr].
  exists qlast, lastErr.
  unfold executeWithFallbacks.
  rewrite (fallback_loop_all_fail _ _ _ Hall), Hlast.
  simpl. unfold errorOf. rewrite HlastErr. simpl.
  eexists. split_and!; try reflexivity. apply app_nil_r.
Qed.

(** C4. Fallback short-circuit: when candidate [i] is the first that
    succeeds, the executor sends exactly the candidates up to and including
    [i], in order, and returns the rows of candidate [i]. *)
Theorem executeWithFallbacks_short_circuit db qs operationName i q rows :
  qs !! i = Some q →
  Query db q = Ok rows →
  (∀ j qj, j < i → qs !! j = Some qj → fails db qj) →
  value_of (executeWithFallbacks db qs operationName) = Ok rows ∧
  trace_of (executeWithFallbacks db qs operationName) = take (S i) qs.
Proof.
  intros Hi Hq Hbefore.
  pose proof (take_drop_middle _ _ _ Hi) as Hsplit.
  assert (Hpre : Forall (fails db) (take i qs)).
  { apply Forall_lookup. intros j qj Hj.
    apply lookup_take_Some in Hj as [Hj Hlt]. eauto. }
  assert (Hloop : fallback_loop db qs None = (inl rows, take (S i) qs)).
  { rewrite (take_S_r _ _ _ Hi). rewrite <- Hsplit at 1.
    by apply fallback_loop_first_ok. }
  unfold executeWithFallbacks. rewrite Hloop. simpl.
  split; [done|]. apply app_nil_r.
Qed.

End FallbackProperties.

Lemma executeWithFallbacks_exhaustion_witness :
  ∃ qlast lastErr e,
    last (GetColumnsQueries PostgresStrategy.strategy "orders") = Some qlast ∧
    Query shopDB qlast = Err lastErr ∧
    trace_of (executeWithFallbacks shopDB
      (GetColumnsQueries PostgresStrategy.strategy "orders") "getColumns[orders]")
      = GetColumnsQueries PostgresStrategy.strategy "orders" ∧
    value_of (executeWithFallbacks shopDB
      (GetColumnsQueries PostgresStrategy.strategy "orders") "getColumns[orders]")
      = Err e ∧
    Unwrap e = Some lastErr ∧
    Error e =
      ("getColumns[orders]" +:+ " failed after trying " +:+
       pretty (length (GetColumnsQueries PostgresStrategy.strategy "orders")) +:+
       " fallback queries: ") +:+ Error lastErr.
Proof.
  apply (executeWithFallbacks_exhaustion shopDB
           (GetColumnsQueries PostgresStrategy.strategy "orders")
           "getColumns[orders]").
  - discriminate.
  - repeat constructor; exists denied; vm_compute; reflexivity.
Defined.

Lemma executeWithFallbacks_short_circuit_witness :
  value_of (executeWithFallbacks showTablesDB
    (GetTablesQueries MySQLStrategy.strategy) "getTables")
    = Ok [ {[ "Tables_in_shop" := VString "users" ]} ] ∧
  trace_of (executeWithFallbacks showTablesDB
    (GetTablesQueries MySQLStrategy.strategy) "getTables")
    = take 2 (GetTablesQueries MySQLStrategy.strategy).
Proof.
  apply (executeWithFallbacks_short_circuit showTablesDB
           (GetTablesQueries MySQLStrategy.strategy) "getTables" 1
           (mkQuery "SHOW TABLES" [])).
  - reflexivity.
  - reflexivity.
  - intros j qj Hj Hqj. destruct j as [|j]; [|lia].
    injection Hqj as <-. exists denied. vm_compute. reflexivity.
Defined.

(** ** Schema cache *)

Lemma Sub_diag (t : Z) : Sub t t = 0%Z.
Proof. unfold Sub. rewrite Z.sub_diag. reflexivity. Qed.

(** The setting is read as a number of seconds, of either sign. *)
Lemma getSchemaCacheTTL_default Atoi : getSchemaCacheTTL Atoi "" = fiveMinutes.
Proof. reflexivity. Qed.

Lemma getSchemaCacheTTL_negative Atoi ttlStr :
  ttlStr ≠ "" → Atoi ttlStr = Some (-1)%Z →
  (getSchemaCacheTTL Atoi ttlStr < 0)%Z.
Proof.
  intros Hne Hatoi. unfold getSchemaCacheTTL.
  rewrite decide_False by done. rewrite Hatoi. by vm_compute.
Qed.

(** After [Set], [Get] finds the value exactly as long as the age of the
    entry does not exceed the time-to-live. *)
Lemma SchemaCache_Get_Set c now later k v :
  SchemaCache_Get (SchemaCache_Set c now k v) later k =
    if (ttl c <? Sub later now)%Z then (VNil, false) else (v, true).
Proof.
  unfold SchemaCache_Get, SchemaCache_Set; simpl.
  by rewrite lookup_insert_eq.
Qed.

(** With a negative time-to-live (the environment setting accepts one) an
    entry is expired from the moment it is stored. *)
Lemma SchemaCache_negative_ttl c now k v :
  (ttl c < 0)%Z →
  SchemaCache_Get (SchemaCache_Set c now k v) now k = (VNil, false).
Proof.
  intros Hneg. rewrite SchemaCache_Get_Set, Sub_diag.
  by rewrite (proj2 (Z.ltb_lt _ _) Hneg).
Qed.

(** [Get] after [Invalidate] finds nothing. *)
Lemma SchemaCache_Get_Invalidate c now k :
  SchemaCache_Get (SchemaCache_Invalidate c k) now k = (VNil, false).
Proof.
  unfold SchemaCache_Get, SchemaCache_Invalidate; simpl.
  by rewrite lookup_delete_eq.
Qed.

(** C5. Cache TTL semantics: [Get] after [Set], while the age of the new
    entry is within the time-to-live (at the instant of the [Set] itself
    whenever the time-to-live is not negative), returns the stored value
    and [true]; and whenever the age of the entry stored for a key exceeds
    the time-to-live, [Get] reports that nothing was found. *)
Theorem SchemaCache_ttl_semantics (c : SchemaCache) (k : string) (v : value) (now : Z) :
  (∀ later, (Sub later now ≤ ttl c)%Z →
     SchemaCache_Get (SchemaCache_Set c now k v) later k = (v, true)) ∧
  ((0 ≤ ttl c)%Z →
     SchemaCache_Get (SchemaCache_Set c now k v) now k = (v, true)) ∧
  (∀ t age, entryAge c t k = Some age → (ttl c < age)%Z →
     SchemaCache_Get c t k = (VNil, false)).
Proof.
  split_and!.
  - intros later Hage. rewrite SchemaCache_Get_Set.
    by rewrite (proj2 (Z.ltb_ge _ _) Hage).
  - intros Httl. rewrite SchemaCache_Get_Set, Sub_diag.
    by rewrite (proj2 (Z.ltb_ge _ _) Httl).
  - intros t age Hage Hlt. unfold entryAge in Hage. unfold SchemaCache_Get.
    destruct (entries c !! k) as [entry|]; [|done].
    simpl in Hage. injection Hage as <-.
    by rewrite (proj2 (Z.ltb_lt _ _) Hlt).
Qed.

Lemma SchemaCache_ttl_semantics_witness :
  SchemaCache_Get
    (SchemaCache_Set (InitSchemaCache fiveMinutes) 1000 "shop" (VString "doc"))
    1000 "shop" = (VString "doc", true) ∧
  SchemaCache_Get
    (SchemaCache_Set (InitSchemaCache fiveMinutes) 1000 "shop" (VString "doc"))
    (1000 + fiveMinutes + 1) "shop" = (VNil, false).
Proof.
  pose proof (SchemaCache_ttl_semantics
    (InitSchemaCache fiveMinutes) "shop" (VString "doc") 1000) as (_ & Hnow & _).
  pose proof (SchemaCache_ttl_semantics
    (SchemaCache_Set (InitSchemaCache fiveMinutes) 1000 "shop" (VString "doc"))
    "shop" VNil 0) as (_ & _ & Hlate).
  split.
  - apply Hnow. vm_compute. discriminate.
  - apply (Hlate (1000 + fiveMinutes + 1)%Z (fiveMinutes + 1)%Z).
    + vm_compute. reflexivity.
    + vm_compute. reflexivity.
Defined.

(** C5 fails as stated when the time-to-live is negative, as the setting
    [SCHEMA_CACHE_TTL=-1] makes it: a value just stored is not found. *)
Lemma ttl_semantics_counterexample :
  getSchemaCacheTTL atoiMinusOne "-1" = (- Second)%Z ∧
  SchemaCache_Get
    (SchemaCache_Set (InitSchemaCache (getSchemaCacheTTL atoiMinusOne "-1"))
       1000 "shop" (VString "doc"))
    1000 "shop" = (VNil, false).
Proof. split; vm_compute; reflexivity. Qed.

(** ** Read-only guard *)

Lemma keywordLoop_prefix upperQuery keywords keyword :
  keyword ∈ keywords →
  HasPrefix upperQuery keyword = true →
  ∃ detected, detected ∈ keywords ∧
    keywordLoop upperQuery keywords = Some (statementError detected).
Proof.
  intros Hin Hpre.
  induction keywords as [|kw rest IH]; [by apply elem_of_nil in Hin|].
  cbn [keywordLoop].
  destruct (HasPrefix upperQuery kw) eqn:Hkw.
  { exists kw. split; [left|done]. }
  destruct (Contains upperQuery (";" +:+ kw) || Contains upperQuery ("; " +:+ kw)).
  { exists kw. split; [left|done]. }
  apply elem_of_cons in Hin as [->|Hin]; [congruence|].
  destruct (IH Hin) as (detected & Hd & Hloop).
  exists detected. split; [by right|done].
Qed.

Section GuardProperties.

Variable ToUpper : string → string.
Variable TrimSpace : string → string.

Lemma validateReadOnlyQuery_write_keyword query keyword :
  keyword ∈ writeKeywords →
  HasPrefix (ToUpper (TrimSpace query)) keyword = true →
  ∃ detected, detected ∈ writeKeywords ∧
    validateReadOnlyQuery ToUpper TrimSpace query = Some (statementError detected).
Proof.
  intros Hin Hpre. unfold validateReadOnlyQuery.
  destruct (keywordLoop_prefix _ _ _ Hin Hpre) as (detected & Hd & ->).
  by exists detected.
Qed.

End GuardProperties.

Example validateReadOnlyQuery_select :
  validateReadOnlyQuery asciiToUpper asciiTrimSpace "select id from users" = None.
Proof. vm_compute. reflexivity. Qed.

Example validateReadOnlyQuery_drop :
  validateReadOnlyQuery asciiToUpper asciiTrimSpace "  drop table users" =
    Some (statementError "DROP").
Proof. vm_compute. reflexivity. Qed.

Example validateReadOnlyQuery_second_statement :
  validateReadOnlyQuery asciiToUpper asciiTrimSpace "select 1; delete from users" =
    Some (statementError "DELETE").
Proof. vm_compute. reflexivity. Qed.

(** ** Tool handlers *)

Section HandlerProperties.

Context {Rows : Type}.
Variable rowsToMaps : Rows → result (list Row).
Variable dbManager : option (@Manager Rows).
Variable getStringParam : gmap string value → string → string * bool.
Variable getArrayParam : gmap string value → string → list value * bool.
Variable TrackQuery : string → list value → M (result value) → M (result value).
Variable ToUpper : string → string.
Variable TrimSpace : string → string.

(** C8. Read-only enforcement: when the trimmed, upper-cased text of the
    query parameter begins with one of the write or DDL keywords, the query
    handler returns an error and sends no query to any database. *)
Theorem handleQuery_rejects_write_statements params keyword :
  keyword ∈ writeKeywords →
  HasPrefix (ToUpper (TrimSpace (getStringParam params "query").1)) keyword = true →
  is_Err (value_of (handleQuery rowsToMaps dbManager getStringParam
                      getArrayParam TrackQuery ToUpper TrimSpace params)) ∧
  trace_of (handleQuery rowsToMaps dbManager getStringParam
              getArrayParam TrackQuery ToUpper TrimSpace params) = [].
Proof.
  intros Hin Hpre. unfold handleQuery.
  destruct dbManager as [m|]; [|by split; [eexists|]].
  destruct (getStringParam params "query") as [q ok]; simpl in Hpre.
  destruct ok; simpl; [|by split; [eexists|]].
  destruct (validateReadOnlyQuery_write_keyword ToUpper TrimSpace q keyword Hin Hpre)
    as (detected & _ & ->).
  by split; [eexists|].
Qed.

(** C7. Required-table enforcement: with component [columns] and an empty
    or absent table argument the schema explorer returns an error and sends
    no query; once the manager, the component and the database are
    resolved, the error is the explicit one about the missing table. *)
Theorem handleSchemaExplorer_columns_requires_table params :
  (getStringParam params "component").1 = "columns" →
  (getStringParam params "table").1 = "" →
  is_Err (value_of (handleSchemaExplorer rowsToMaps dbManager getStringParam params)) ∧
  trace_of (handleSchemaExplorer rowsToMaps dbManager getStringParam params) = [] ∧
  (∀ m databaseID db,
     dbManager = Some m →
     getStringParam params "component" = ("columns", true) →
     getStringParam params "database" = (databaseID, true) →
     GetDatabase m databaseID = Ok db →
     value_of (handleSchemaExplorer rowsToMaps dbManager getStringParam params) =
       Err (errorString "table parameter is required for columns component")).
Proof.
  intros Hcomp Htable. unfold handleSchemaExplorer.
  destruct dbManager as [m|]; [|by split_and!; [eexists| |]].
  destruct (getStringParam params "component") as [component ok] eqn:Hc.
  simpl in Hcomp. subst component.
  destruct ok; simpl; [|by split_and!; [eexists| |intros ???? [=]]].
  destruct (getStringParam params "database") as [databaseID ok] eqn:Hd.
  destruct ok; simpl; [|by split_and!; [eexists| |intros ????? [=]]].
  destruct (GetDatabase m databaseID) as [db|err] eqn:Hdb.
  - rewrite Htable. rewrite decide_True by done.
    by split_and!; [eexists| |].
  - split_and!; [by eexists|done|].
    intros m' id' db' [= <-] _ [= <-] Hok. congruence.
Qed.

End HandlerProperties.

Lemma handleQuery_rejects_write_statements_witness :
  is_Err (value_of (handleQuery sampleRowsToMaps (Some shopManager) readString
                      readArray runTracked asciiToUpper asciiTrimSpace
                      {[ "query" := VString "  drop table users";
                         "database" := VString "shop" ]})) ∧
  trace_of (handleQuery sampleRowsToMaps (Some shopManager) readString
              readArray runTracked asciiToUpper asciiTrimSpace
              {[ "query" := VString "  drop table users";
                 "database" := VString "shop" ]}) = [].
Proof.
  apply (handleQuery_rejects_write_statements sampleRowsToMaps (Some shopManager)
           readString readArray runTracked asciiToUpper asciiTrimSpace
           {[ "query" := VString "  drop table users";
              "database" := VString "shop" ]} "DROP").
  - vm_compute. do 3 right. left.
  - vm_compute. reflexivity.
Defined.

Lemma handleSchemaExplorer_columns_requires_table_witness :
  value_of (handleSchemaExplorer sampleRowsToMaps (Some shopManager) readString
              {[ "component" := VString "columns";
                 "database" := VString "shop" ]}) =
    Err (errorString "table parameter is required for columns component") ∧
  trace_of (handleSchemaExplorer sampleRowsToMaps (Some shopManager) readString
              {[ "component" := VString "columns";
                 "database" := VString "shop" ]}) = [].
Proof.
  destruct (handleSchemaExplorer_columns_requires_table sampleRowsToMaps
              (Some shopManager) readString
              {[ "component" := VString "columns";
                 "database" := VString "shop" ]})
    as (_ & Htrace & Hexplicit).
  - vm_compute. reflexivity.
  - vm_compute. reflexivity.
  - split; [|exact Htrace].
    apply (Hexplicit shopManager "shop" shopDB); reflexivity.
Defined.

(** ** Schema assembly *)

Lemma mapOrNil_VMap (m : gmap string value) : mapOrNil (VMap m) = m.
Proof. reflexivity. Qed.

Lemma listed_em (tablesSlice : list Row) (tableName : string) :
  listed tablesSlice tableName ∨ ¬ listed tablesSlice tableName.
Proof.
  induction tablesSlice as [|r rest IH].
  { right. intros (r & Hin & _). by apply elem_of_nil in Hin. }
  destruct IH as [(r' & Hin & Hr')|Hno].
  { left. exists r'. split; [by right|done]. }
  destruct (safeGetString r "table_name") as [T|e] eqn:Hr.
  - destruct (decide (T = tableName)) as [->|Hne].
    + left. exists r. split; [left|done].
    + right. intros (r' & Hin & Hr').
      apply elem_of_cons in Hin as [->|Hin]; [congruence|].
      apply Hno. by exists r'.
  - right. intros (r' & Hin & Hr').
    apply elem_of_cons in Hin as [->|Hin]; [congruence|].
    apply Hno. by exists r'.
Qed.

Section AssemblyProperties.

Context {Rows : Type}.
Variable rowsToMaps : Rows → result (list Row).
Implicit Types (db : @Database Rows) (tablesSlice : list Row).

Lemma getTables_Ok db v :
  value_of (getTables rowsToMaps db) = Ok v →
  ∃ results, v = VMap {[ "tables" := VRows results;
                         "dbType" := VString (DriverName db) ]}.
Proof.
  unfold getTables. rewrite value_of_bind.
  destruct (value_of (executeWithFallbacks _ _ _)) as [rows|err]; [|done].
  destruct (rowsToMaps rows) as [results|err]; [|done].
  intros [= <-]. by exists results.
Qed.

Lemma tableListOf_Some db tablesSlice :
  tableListOf rowsToMaps db = Some tablesSlice →
  value_of (getTables rowsToMaps db) =
    Ok (VMap {[ "tables" := VRows tablesSlice;
                "dbType" := VString (DriverName db) ]}).
Proof.
  unfold tableListOf.
  destruct (value_of (getTables rowsToMaps db)) as [v|err] eqn:Hv; [|done].
  destruct (getTables_Ok _ _ Hv) as [results ->].
  rewrite mapOrNil_VMap, lookup_insert_eq. simpl. by intros [= ->].
Qed.

(** One iteration of the loop over the table list. *)
Lemma tablesLoop_cons db enumsByType statsByTable tableInfo rest detailedSchema :
  value_of (tablesLoop rowsToMaps db enumsByType statsByTable
              (tableInfo :: rest) detailedSchema) =
  match safeGetString tableInfo "table_name" with
  | Err err => Err (Errorf_w "invalid table info: " err)
  | Ok tableName =>
      match value_of (getColumns rowsToMaps db tableName) with
      | Err _ =>
          value_of (tablesLoop rowsToMaps db enumsByType statsByTable
                      rest detailedSchema)
      | Ok columnsResult =>
          value_of (tablesLoop rowsToMaps db enumsByType statsByTable rest
            (<[tableName := tableSchemaOf rowsToMaps db enumsByType statsByTable
                              tableName columnsResult]> detailedSchema))
      end
  end.
Proof.
  cbn [tablesLoop].
  destruct (safeGetString tableInfo "table_name") as [tableName|err]; [|done].
  rewrite value_of_bind.
  destruct (value_of (getColumns rowsToMaps db tableName)) as [cr|err]; [|done].
  by rewrite !value_of_bind.
Qed.

(** A row without a string [table_name] aborts the loop. *)
Lemma tablesLoop_unnamed db enumsByType statsByTable tablesSlice detailedSchema :
  Exists (λ tableInfo, ¬ named tableInfo) tablesSlice →
  ∃ tableInfo err,
    tableInfo ∈ tablesSlice ∧
    safeGetString tableInfo "table_name" = Err err ∧
    value_of (tablesLoop rowsToMaps db enumsByType statsByTable
                tablesSlice detailedSchema) =
      Err (Errorf_w "invalid table info: " err).
Proof.
  intros Hex. revert detailedSchema.
  induction tablesSlice as [|tableInfo rest IH]; intros detailedSchema.
  { by apply Exists_nil in Hex. }
  rewrite tablesLoop_cons.
  destruct (safeGetString tableInfo "table_name") as [tableName|err] eqn:Hname.
  - apply Exists_cons in Hex as [Hbad|Hex].
    { exfalso. apply Hbad. by exists tableName. }
    destruct (value_of (getColumns rowsToMaps db tableName)) as [cr|e].
    + destruct (IH Hex (<[tableName := tableSchemaOf rowsToMaps db enumsByType
                            statsByTable tableName cr]> detailedSchema))
        as (r & err & Hin & Herr & Hval).
      exists r, err. split_and!; [by right|done|done].
    + destruct (IH Hex detailedSchema) as (r & err & Hin & Herr & Hval).
      exists r, err. split_and!; [by right|done|done].
  - exists tableInfo, err. split_and!; [left|done|done].
Qed.

(** When every row names its table the loop ends normally: a table whose
    columns can be read gets its entry, and nothing else is stored. *)
Lemma tablesLoop_named db enumsByType statsByTable tablesSlice detailedSchema :
  Forall named tablesSlice →
  ∃ detailed,
    value_of (tablesLoop rowsToMaps db enumsByType statsByTable
                tablesSlice detailedSchema) = Ok detailed ∧
    (∀ tableName columnsResult,
       listed tablesSlice tableName →
       value_of (getColumns rowsToMaps db tableName) = Ok columnsResult →
       detailed !! tableName =
         Some (tableSchemaOf rowsToMaps db enumsByType statsByTable
                 tableName columnsResult)) ∧
    (∀ tableName,
       ¬ listed tablesSlice tableName
       ∨ is_Err (value_of (getColumns rowsToMaps db tableName)) →
       detailed !! tableName = detailedSchema !! tableName).
Proof.
  intros Hall. revert detailedSchema.
  induction Hall as [|tableInfo rest [tableName Hname] _ IH]; intros detailedSchema.
  { exists detailedSchema. split_and!; [done| |done].
    intros T cr (r & Hin & _). by apply elem_of_nil in Hin. }
  rewrite tablesLoop_cons, Hname.
  destruct (value_of (getColumns rowsToMaps db tableName)) as [cr|e] eqn:Hcols.
  - destruct (IH (<[tableName := tableSchemaOf rowsToMaps db enumsByType
                      statsByTable tableName cr]> detailedSchema))
      as (detailed & Hval & Hin & Hout).
    exists detailed. split_and!; [done| |].
    + intros T crT (r & Hr & HrT) HcolsT.
      destruct (listed_em rest T) as [Hrest|Hrest].
      { by apply Hin. }
      apply elem_of_cons in Hr as [->|Hr]; [|exfalso; apply Hrest; by exists r].
      rewrite Hname in HrT. injection HrT as <-.
      rewrite Hcols in HcolsT. injection HcolsT as <-.
      rewrite (Hout tableName) by (by left).
      apply lookup_insert_eq.
    + intros T HT.
      assert (HT' : ¬ listed rest T ∨ is_Err (value_of (getColumns rowsToMaps db T))).
      { destruct HT as [HT|HT]; [left|by right].
        intros (r & Hr & HrT). apply HT. exists r. split; [by right|done]. }
      rewrite (Hout T HT').
      apply lookup_insert_ne. intros <-.
      destruct HT as [HT|[e He]]; [|congruence].
      apply HT. exists tableInfo. split; [left|done].
  - destruct (IH detailedSchema) as (detailed & Hval & Hin & Hout).
    exists detailed. split_and!; [done| |].
    + intros T crT (r & Hr & HrT) HcolsT.
      apply Hin; [|done].
      apply elem_of_cons in Hr as [->|Hr]; [|by exists r].
      rewrite Hname in HrT. injection HrT as <-. congruence.
    + intros T HT. apply Hout.
      destruct HT as [HT|HT]; [left|by right].
      intros (r & Hr & HrT). apply HT. exists r. split; [by right|done].
Qed.

End AssemblyProperties.

Section DocumentProperties.

Context {Rows : Type}.
Variable rowsToMaps : Rows → result (list Row).
Implicit Types (db : @Database Rows) (tablesSlice : list Row).

Lemma named_asString (tableInfo : Row) :
  named tableInfo ↔ is_Some (asString (tableInfo !! "table_name")).
Proof.
  unfold named, safeGetString.
  destruct (tableInfo !! "table_name") as [[]|]; simpl;
    split; intros [x Hx]; try discriminate; eauto; by eexists.
Qed.

(** [getFullSchema] after the table list is known: the outcome of the loop
    decides the outcome of the call. *)
Lemma getFullSchema_value db tablesSlice :
  tableListOf rowsToMaps db = Some tablesSlice →
  value_of (getFullSchema rowsToMaps db) =
    match value_of (tablesLoop rowsToMaps db (enumCatalogOf rowsToMaps db)
                      (statsIndexOf rowsToMaps db) tablesSlice ∅) with
    | Err err => Err err
    | Ok detailed => Ok (VMap (documentOf rowsToMaps db tablesSlice detailed))
    end.
Proof.
  intros Hlist. apply tableListOf_Some in Hlist.
  unfold getFullSchema. rewrite value_of_bind, Hlist.
  cbn [safeGetMap]. rewrite lookup_insert_eq. cbn [asRows].
  rewrite !value_of_bind.
  fold (enumCatalogOf rowsToMaps db) (statsIndexOf rowsToMaps db).
  destruct (value_of (tablesLoop _ _ _ _ _ _)) as [detailed|err]; [|done].
  by rewrite value_of_bind.
Qed.

(** The call fails when the table list cannot be fetched. *)
Lemma getFullSchema_tables_fail db err :
  value_of (getTables rowsToMaps db) = Err err →
  value_of (getFullSchema rowsToMaps db) = Err (Errorf_w "failed to get tables: " err).
Proof.
  intros Hfail. unfold getFullSchema. by rewrite value_of_bind, Hfail.
Qed.

(** The entry of a table in the returned document: the entry the loop
    stored, with its foreign keys attached. *)
Lemma documentOf_detailed db tablesSlice detailed :
  documentOf rowsToMaps db tablesSlice detailed !! "detailed_schema" =
    Some (VMap (map_imap
      (attachForeignKeys (foldl addForeignKey ∅ (foreignKeysOf rowsToMaps db)))
      detailed)).
Proof. unfold documentOf. by simplify_map_eq. Qed.

Lemma attached_tableSchemaOf db fksByTable enumsByType statsByTable
    (detailed : gmap string value) tableName columnsResult :
  detailed !! tableName =
    Some (tableSchemaOf rowsToMaps db enumsByType statsByTable tableName columnsResult) →
  ∃ schema,
    map_imap (attachForeignKeys fksByTable) detailed !! tableName = Some (VMap schema) ∧
    schema !! "columns" =
      Some (default VNil
              (enhanceColumns enumsByType (mapOrNil columnsResult) !! "columns")) ∧
    schema !! "statistics" = Some (VMap (default ∅ (statsByTable !! tableName))) ∧
    schema !! "foreign_keys" = Some (VRows (default [] (fksByTable !! tableName))).
Proof.
  intros Hlook. rewrite map_lookup_imap, Hlook. simpl.
  eexists. split; [reflexivity|]. by simplify_map_eq.
Qed.

Lemma enhanceColumn_user_defined enumsByType (column : Row) udtName enumVals :
  column !! "data_type" = Some (VString "USER-DEFINED") →
  column !! "udt_name" = Some (VString udtName) →
  enumsByType !! udtName = Some enumVals →
  enhanceColumn enumsByType column !! "enum_values" = Some (VStrings enumVals) ∧
  enhanceColumn enumsByType column !! "enum_type" = Some (VString udtName).
Proof.
  intros Htype Hudt Henum. unfold enhanceColumn.
  rewrite Htype, Hudt. simpl. rewrite Henum.
  by simplify_map_eq.
Qed.

(** C10. A table row without a string-valued [table_name] aborts the whole
    assembly: when the tables facet succeeds and one of its rows lacks such
    a key, [getFullSchema] returns the error raised for a row of the list,
    and no document. *)
Theorem getFullSchema_unnamed_row_aborts db tablesSlice :
  tableListOf rowsToMaps db = Some tablesSlice →
  Exists (λ tableInfo, asString (tableInfo !! "table_name") = None) tablesSlice →
  ∃ tableInfo err,
    tableInfo ∈ tablesSlice ∧
    safeGetString tableInfo "table_name" = Err err ∧
    value_of (getFullSchema rowsToMaps db) =
      Err (Errorf_w "invalid table info: " err).
Proof.
  intros Hlist Hex.
  rewrite (getFullSchema_value _ _ Hlist).
  destruct (tablesLoop_unnamed rowsToMaps db (enumCatalogOf rowsToMaps db)
              (statsIndexOf rowsToMaps db) tablesSlice ∅)
    as (tableInfo & err & Hin & Herr & Hval).
  { eapply Exists_impl; [exact Hex|]. intros r Hr Hnamed.
    apply named_asString in Hnamed as [x Hx]. congruence. }
  exists tableInfo, err. by rewrite Hval.
Qed.

(** C1. Per-table failure isolation: when every row of the table list
    names its table, the columns of the listed table [T] cannot be fetched
    and those of the listed table [U] can, [getFullSchema] still returns a
    document; its [tables] entry is the whole table list, its
    [detailed_schema] has an entry for [U] and none for [T]. *)
Theorem getFullSchema_table_isolation db tablesSlice T U :
  tableListOf rowsToMaps db = Some tablesSlice →
  Forall named tablesSlice →
  listed tablesSlice T →
  listed tablesSlice U →
  is_Err (value_of (getColumns rowsToMaps db T)) →
  is_Ok (value_of (getColumns rowsToMaps db U)) →
  ∃ doc detailed,
    value_of (getFullSchema rowsToMaps db) = Ok (VMap doc) ∧
    doc !! "tables" = Some (VRows tablesSlice) ∧
    doc !! "detailed_schema" = Some (VMap detailed) ∧
    is_Some (detailed !! U) ∧
    detailed !! T = None.
Proof.
  intros Hlist Hnamed HT HU HfailT [cr HokU].
  destruct (tablesLoop_named rowsToMaps db (enumCatalogOf rowsToMaps db)
              (statsIndexOf rowsToMaps db) tablesSlice ∅ Hnamed)
    as (detailed & Hval & Hin & Hout).
  eexists _, _. rewrite (getFullSchema_value _ _ Hlist), Hval.
  split_and!; [reflexivity|by unfold documentOf; simplify_map_eq
              |apply documentOf_detailed| |].
  - destruct (attached_tableSchemaOf db
                (foldl addForeignKey ∅ (foreignKeysOf rowsToMaps db))
                _ _ _ _ _ (Hin U cr HU HokU)) as (schema & -> & _).
    by eexists.
  - rewrite map_lookup_imap, (Hout T) by (by right). done.
Qed.

(** C6. Enum attachment: in the document of a successful assembly, a
    column of a listed table whose [data_type] is [USER-DEFINED] and whose
    [udt_name] is a key of the enum catalog carries [enum_values], the
    catalog's list of labels for that key, and [enum_type], the
    [udt_name]. *)
Theorem getFullSchema_enum_attachment db tablesSlice T columnsResult
    (columns : list Row) i (column : Row) udtName enumVals :
  tableListOf rowsToMaps db = Some tablesSlice →
  Forall named tablesSlice →
  listed tablesSlice T →
  value_of (getColumns rowsToMaps db T) = Ok columnsResult →
  asRows (mapOrNil columnsResult !! "columns") = Some columns →
  columns !! i = Some column →
  column !! "data_type" = Some (VString "USER-DEFINED") →
  column !! "udt_name" = Some (VString udtName) →
  enumCatalogOf rowsToMaps db !! udtName = Some enumVals →
  ∃ doc detailed schema (assembled : list Row) (column' : Row),
    value_of (getFullSchema rowsToMaps db) = Ok (VMap doc) ∧
    doc !! "enum_types" = Some (VEnums (enumCatalogOf rowsToMaps db)) ∧
    doc !! "detailed_schema" = Some (VMap detailed) ∧
    detailed !! T = Some (VMap schema) ∧
    schema !! "columns" = Some (VRows assembled) ∧
    assembled !! i = Some column' ∧
    column' !! "column_name" = column !! "column_name" ∧
    column' !! "enum_values" = Some (VStrings enumVals) ∧
    column' !! "enum_type" = Some (VString udtName).
Proof.
  intros Hlist Hnamed HT Hcols Hrows Hi Htype Hudt Henum.
  destruct (tablesLoop_named rowsToMaps db (enumCatalogOf rowsToMaps db)
              (statsIndexOf rowsToMaps db) tablesSlice ∅ Hnamed)
    as (detailed & Hval & Hin & _).
  destruct (attached_tableSchemaOf db
              (foldl addForeignKey ∅ (foreignKeysOf rowsToMaps db))
              _ _ _ _ _ (Hin T columnsResult HT Hcols))
    as (schema & Hschema & Hcolumns & _).
  destruct (enhanceColumn_user_defined _ _ _ _ Htype Hudt Henum) as [Hvals Hty].
  eexists (documentOf rowsToMaps db tablesSlice detailed), _, schema,
    (enhanceColumn (enumCatalogOf rowsToMaps db) <$> columns),
    (enhanceColumn (enumCatalogOf rowsToMaps db) column).
  rewrite (getFullSchema_value _ _ Hlist), Hval.
  split_and!; [reflexivity|by unfold documentOf; simplify_map_eq
              |apply documentOf_detailed|exact Hschema| | | |exact Hvals|exact Hty].
  - rewrite Hcolumns. unfold enhanceColumns. rewrite Hrows.
    by rewrite lookup_insert_eq.
  - by rewrite list_lookup_fmap, Hi.
  - unfold enhanceColumn. rewrite Htype, Hudt. simpl.
    rewrite Henum. by simplify_map_eq.
Qed.

End DocumentProperties.

Section TolerantFacets.

Context {Rows : Type}.
Variable rowsToMaps : Rows → result (list Row).
Implicit Types (db : @Database Rows) (tablesSlice : list Row).

Lemma executeWithFallbacks_all_fail db qs operationName :
  Forall (fails db) qs →
  is_Err (value_of (executeWithFallbacks db qs operationName)).
Proof.
  intros Hall. unfold executeWithFallbacks.
  rewrite (fallback_loop_all_fail _ _ _ Hall). by eexists.
Qed.

Lemma enumCatalogOf_all_fail db :
  Forall (fails db) (GetEnumValuesQueries (NewDatabaseStrategy (DriverName db))) →
  enumCatalogOf rowsToMaps db = ∅.
Proof.
  intros Hall. unfold enumCatalogOf, getEnumValues. rewrite value_of_bind.
  by destruct (executeWithFallbacks_all_fail db _ "getEnumValues" Hall) as [e ->].
Qed.

Lemma statsIndexOf_all_fail db :
  Forall (fails db) (GetTableStatsQueries (NewDatabaseStrategy (DriverName db)) "") →
  statsIndexOf rowsToMaps db = ∅.
Proof.
  intros Hall. unfold statsIndexOf, getTableStats. rewrite value_of_bind.
  by destruct (executeWithFallbacks_all_fail db _ "getTableStats" Hall) as [e ->].
Qed.

(** C2. Tolerant facets never abort the call: when every candidate of the
    enum-values facet and every candidate of the table-statistics facet
    fails (and the table list is fetched, each row naming its table),
    [getFullSchema] returns a document whose [enum_types] is the empty
    mapping and in which the [statistics] of every table entry is the empty
    record; every listed table whose columns can be read has its entry. *)
Theorem getFullSchema_tolerant_facets db tablesSlice :
  tableListOf rowsToMaps db = Some tablesSlice →
  Forall named tablesSlice →
  Forall (fails db) (GetEnumValuesQueries (NewDatabaseStrategy (DriverName db))) →
  Forall (fails db) (GetTableStatsQueries (NewDatabaseStrategy (DriverName db)) "") →
  ∃ doc detailed,
    value_of (getFullSchema rowsToMaps db) = Ok (VMap doc) ∧
    doc !! "enum_types" = Some (VEnums ∅) ∧
    doc !! "detailed_schema" = Some (VMap detailed) ∧
    (∀ T, listed tablesSlice T →
          is_Ok (value_of (getColumns rowsToMaps db T)) →
          is_Some (detailed !! T)) ∧
    (∀ T tableSchema, detailed !! T = Some tableSchema →
       ∃ schema, tableSchema = VMap schema ∧
                 schema !! "statistics" = Some (VMap ∅)).
Proof.
  intros Hlist Hnamed Henums Hstats.
  destruct (tablesLoop_named rowsToMaps db (enumCatalogOf rowsToMaps db)
              (statsIndexOf rowsToMaps db) tablesSlice ∅ Hnamed)
    as (detailed & Hval & Hin & Hout).
  eexists _, _. rewrite (getFullSchema_value _ _ _ Hlist), Hval.
  split_and!; [reflexivity| |apply documentOf_detailed| |].
  - unfold documentOf. rewrite (enumCatalogOf_all_fail _ Henums).
    by simplify_map_eq.
  - intros T HT [cr Hcr].
    destruct (attached_tableSchemaOf rowsToMaps db
                (foldl addForeignKey ∅ (foreignKeysOf rowsToMaps db))
                _ _ _ _ _ (Hin T cr HT Hcr)) as (schema & -> & _).
    by eexists.
  - intros T tableSchema HT.
    destruct (listed_em tablesSlice T) as [Hl|Hnl];
      [destruct (value_of (getColumns rowsToMaps db T)) as [cr|e] eqn:Hcr|].
    + destruct (attached_tableSchemaOf rowsToMaps db
                  (foldl addForeignKey ∅ (foreignKeysOf rowsToMaps db))
                  _ _ _ _ _ (Hin T cr Hl Hcr)) as (schema & Hs & _ & Hstat & _).
      rewrite Hs in HT. injection HT as <-. exists schema. split; [done|].
      by rewrite Hstat, (statsIndexOf_all_fail _ Hstats), lookup_empty.
    + rewrite map_lookup_imap, (Hout T) in HT; [done|].
      right. by exists e.
    + rewrite map_lookup_imap, (Hout T) in HT; [done|by left].
Qed.

End TolerantFacets.

(** C1 fails as stated when a row of the table list has no string
    [table_name]: on the list [users], [orders], NULL the columns of
    [orders] cannot be read and those of [users] can, and the call fails;
    so it does on a MySQL database that answers only [SHOW TABLES] and
    [SHOW COLUMNS FROM users]. *)
Lemma table_isolation_counterexample :
  (tableListOf sampleRowsToMaps nullRowDB =
     Some [ {[ "table_name" := VString "users" ]};
            {[ "table_name" := VString "orders" ]};
            {[ "table_name" := VNil ]} ] ∧
   is_Err (value_of (getColumns sampleRowsToMaps nullRowDB "orders")) ∧
   is_Ok (value_of (getColumns sampleRowsToMaps nullRowDB "users")) ∧
   is_Err (value_of (getFullSchema sampleRowsToMaps nullRowDB))) ∧
  (tableListOf sampleRowsToMaps showShopDB =
     Some [ {[ "Tables_in_shop" := VString "users" ]};
            {[ "Tables_in_shop" := VString "orders" ]} ] ∧
   is_Err (value_of (getColumns sampleRowsToMaps showShopDB "orders")) ∧
   is_Ok (value_of (getColumns sampleRowsToMaps showShopDB "users")) ∧
   is_Err (value_of (getFullSchema sampleRowsToMaps showShopDB))).
Proof.
  split; (split_and!; [vm_compute; reflexivity|..]);
    eexists; vm_compute; reflexivity.
Qed.

(** C2 fails as stated when a row of the table list has no string
    [table_name]: on the MySQL database that answers only [SHOW TABLES] the
    table list is fetched, the enum and statistics candidates are all sent
    and all fail, and the call fails. *)
Lemma tolerant_facets_counterexample :
  is_Ok (value_of (getTables sampleRowsToMaps showTablesDB)) ∧
  Forall (fails showTablesDB)
    (GetEnumValuesQueries (NewDatabaseStrategy (DriverName showTablesDB))) ∧
  Forall (fails showTablesDB)
    (GetTableStatsQueries (NewDatabaseStrategy (DriverName showTablesDB)) "") ∧
  trace_of (getFullSchema sampleRowsToMaps showTablesDB) =
    GetTablesQueries MySQLStrategy.strategy ++
    GetEnumValuesQueries MySQLStrategy.strategy ++
    GetTableStatsQueries MySQLStrategy.strategy "" ∧
  is_Err (value_of (getFullSchema sampleRowsToMaps showTablesDB)).
Proof.
  split_and!.
  - eexists. vm_compute. reflexivity.
  - repeat constructor; eexists; vm_compute; reflexivity.
  - repeat constructor; eexists; vm_compute; reflexivity.
  - vm_compute. reflexivity.
  - eexists. vm_compute. reflexivity.
Qed.

Example enumDB_catalog :
  enumCatalogOf sampleRowsToMaps enumDB =
    {[ "order_status" := ["pending"; "shipped"; "delivered"] ]}.
Proof. vm_compute. reflexivity. Qed.

Example shopDB_trace_length :
  length (trace_of (getFullSchema sampleRowsToMaps shopDB)) = 11.
Proof. vm_compute. reflexivity. Qed.

Lemma shopDB_tableList :
  tableListOf sampleRowsToMaps shopDB =
    Some [ {[ "table_name" := VString "users" ]};
           {[ "table_name" := VString "orders" ]} ].
Proof. vm_compute. reflexivity. Qed.

Lemma shopDB_named :
  Forall named [ ({[ "table_name" := VString "users" ]} : Row);
                 {[ "table_name" := VString "orders" ]} ].
Proof. repeat constructor; eexists; vm_compute; reflexivity. Qed.

Lemma getFullSchema_table_isolation_witness :
  ∃ doc detailed,
    value_of (getFullSchema sampleRowsToMaps shopDB) = Ok (VMap doc) ∧
    doc !! "tables" =
      Some (VRows [ {[ "table_name" := VString "users" ]};
                    {[ "table_name" := VString "orders" ]} ]) ∧
    doc !! "detailed_schema" = Some (VMap detailed) ∧
    is_Some (detailed !! "users") ∧
    detailed !! "orders" = None.
Proof.
  apply (getFullSchema_table_isolation sampleRowsToMaps shopDB
           [ {[ "table_name" := VString "users" ]};
             {[ "table_name" := VString "orders" ]} ] "orders" "users").
  - exact shopDB_tableList.
  - exact shopDB_named.
  - exists {[ "table_name" := VString "orders" ]}.
    split; [right; left|vm_compute; reflexivity].
  - exists {[ "table_name" := VString "users" ]}.
    split; [left|vm_compute; reflexivity].
  - eexists. vm_compute. reflexivity.
  - eexists. vm_compute. reflexivity.
Defined.

Lemma getFullSchema_tolerant_facets_witness :
  ∃ doc detailed,
    value_of (getFullSchema sampleRowsToMaps shopDB) = Ok (VMap doc) ∧
    doc !! "enum_types" = Some (VEnums ∅) ∧
    doc !! "detailed_schema" = Some (VMap detailed) ∧
    (∀ T, listed [ {[ "table_name" := VString "users" ]};
                   {[ "table_name" := VString "orders" ]} ] T →
          is_Ok (value_of (getColumns sampleRowsToMaps shopDB T)) →
          is_Some (detailed !! T)) ∧
    (∀ T tableSchema, detailed !! T = Some tableSchema →
       ∃ schema, tableSchema = VMap schema ∧
                 schema !! "statistics" = Some (VMap ∅)).
Proof.
  apply (getFullSchema_tolerant_facets sampleRowsToMaps shopDB).
  - exact shopDB_tableList.
  - exact shopDB_named.
  - repeat constructor; eexists; vm_compute; reflexivity.
  - repeat constructor; eexists; vm_compute; reflexivity.
Defined.

Lemma getFullSchema_unnamed_row_aborts_witness :
  ∃ tableInfo err,
    tableInfo ∈ [ ({[ "Tables_in_shop" := VString "users" ]} : Row) ] ∧
    safeGetString tableInfo "table_name" = Err err ∧
    value_of (getFullSchema sampleRowsToMaps showTablesDB) =
      Err (Errorf_w "invalid table info: " err).
Proof.
  apply (getFullSchema_unnamed_row_aborts sampleRowsToMaps showTablesDB).
  - vm_compute. reflexivity.
  - left. vm_compute. reflexivity.
Defined.

Lemma getFullSchema_enum_attachment_witness :
  ∃ doc detailed schema (assembled : list Row) (column' : Row),
    value_of (getFullSchema sampleRowsToMaps enumDB) = Ok (VMap doc) ∧
    doc !! "enum_types" = Some (VEnums (enumCatalogOf sampleRowsToMaps enumDB)) ∧
    doc !! "detailed_schema" = Some (VMap detailed) ∧
    detailed !! "orders" = Some (VMap schema) ∧
    schema !! "columns" = Some (VRows assembled) ∧
    assembled !! 0 = Some column' ∧
    column' !! "column_name" =
      ({[ "column_name" := VString "status";
          "data_type" := VString "USER-DEFINED";
          "udt_name" := VString "order_status" ]} : Row) !! "column_name" ∧
    column' !! "enum_values" = Some (VStrings ["pending"; "shipped"; "delivered"]) ∧
    column' !! "enum_type" = Some (VString "order_status").
Proof.
  apply (getFullSchema_enum_attachment sampleRowsToMaps enumDB
           [ {[ "table_name" := VString "orders" ]} ] "orders"
           (VMap {[ "table" := VString "orders";
                    "columns" := VRows
                      [ {[ "column_name" := VString "status";
                           "data_type" := VString "USER-DEFINED";
                           "udt_name" := VString "order_status" ]} ];
                    "dbType" := VString "postgres" ]})
           [ {[ "column_name" := VString "status";
                "data_type" := VString "USER-DEFINED";
                "udt_name" := VString "order_status" ]} ]
           0
           {[ "column_name" := VString "status";
              "data_type" := VString "USER-DEFINED";
              "udt_name" := VString "order_status" ]}
           "order_status" ["pending"; "shipped"; "delivered"]).
  - vm_compute. reflexivity.
  - repeat constructor; eexists; vm_compute; reflexivity.
  - exists {[ "table_name" := VString "orders" ]}.
    split; [left|vm_compute; reflexivity].
  - vm_compute. reflexivity.
  - vm_compute. reflexivity.
  - reflexivity.
  - vm_compute. reflexivity.
  - vm_compute. reflexivity.
  - vm_compute. reflexivity.
Defined.

(** ** Schema filters of the dialect strategies *)

Ltac elem_cases H :=
  first [ by apply elem_of_nil in H
        | apply elem_of_cons in H as [->|H]; [|elem_cases H] ].

Ltac candidate_cases H :=
  cbv beta iota zeta delta
    [candidates
     GetTablesQueries GetColumnsQueries GetRelationshipsQueries
     GetPrimaryKeysQueries GetIndexesQueries GetEnumValuesQueries
     GetUniqueConstraintsQueries GetTableStatsQueries
     PostgresStrategy.strategy PostgresStrategy.GetTablesQueries
     PostgresStrategy.GetColumnsQueries PostgresStrategy.GetRelationshipsQueries
     PostgresStrategy.GetPrimaryKeysQueries PostgresStrategy.GetIndexesQueries
     PostgresStrategy.GetEnumValuesQueries
     PostgresStrategy.GetUniqueConstraintsQueries
     PostgresStrategy.GetTableStatsQueries
     MySQLStrategy.strategy MySQLStrategy.GetTablesQueries
     MySQLStrategy.GetColumnsQueries MySQLStrategy.GetRelationshipsQueries
     MySQLStrategy.GetPrimaryKeysQueries MySQLStrategy.GetIndexesQueries
     MySQLStrategy.GetEnumValuesQueries
     MySQLStrategy.GetUniqueConstraintsQueries
     MySQLStrategy.GetTableStatsQueries
     GenericStrategy.strategy GenericStrategy.GetTablesQueries
     GenericStrategy.GetColumnsQueries GenericStrategy.GetRelationshipsQueries
     GenericStrategy.GetPrimaryKeysQueries GenericStrategy.GetIndexesQueries
     GenericStrategy.GetEnumValuesQueries
     GenericStrategy.GetUniqueConstraintsQueries
     GenericStrategy.GetTableStatsQueries] in H;
  try case_decide;
  elem_cases H.

(** C9 fails as stated: the second tables candidate of the generic strategy
    reads every schema, its text has neither of the two filters. *)
Lemma schema_restriction_counterexample :
  GenericStrategy.strategy ∈ strategies ∧
  mkQuery "SELECT table_name FROM information_schema.tables" []
    ∈ candidates GenericStrategy.strategy Tables "" ∧
  schemaRestricted
    (query (mkQuery "SELECT table_name FROM information_schema.tables" [])) = false.
Proof.
  split_and!.
  - do 2 right. left.
  - right. left.
  - vm_compute. reflexivity.
Qed.

(** C9, as the code has it. Every candidate of the PostgreSQL strategy, for
    every facet and table argument, filters on the schema ['public']
    (through [schemaname], [table_schema] or [nspname]); every candidate of
    the MySQL strategy filters on the current database (through
    [table_schema] or [constraint_schema] equal to [DATABASE()]) or is one
    of the [SHOW] fallbacks; the enum-values and table-statistics candidates
    of the generic strategy carry one of these filters. *)
Theorem schema_restriction_by_dialect (f : facet) (table : string) (q : queryWithArgs) :
  (q ∈ candidates PostgresStrategy.strategy f table →
     publicFilter (query q) = true) ∧
  (q ∈ candidates MySQLStrategy.strategy f table →
     currentDatabaseFilter (query q) = true ∨ HasPrefix (query q) "SHOW " = true) ∧
  (q ∈ candidates GenericStrategy.strategy f table →
     f = EnumValues ∨ f = TableStats →
     publicFilter (query q) || currentDatabaseFilter (query q) = true).
Proof.
  split_and!.
  - intros H. destruct f; candidate_cases H; vm_compute; reflexivity.
  - intros H.
    destruct f; candidate_cases H;
      first [ left; vm_compute; reflexivity | right; vm_compute; reflexivity ].
  - intros H [->| ->]; candidate_cases H; vm_compute; reflexivity.
Qed.

Lemma schema_restriction_by_dialect_witness :
  publicFilter (query (mkQuery
    "SELECT relname as table_name FROM pg_catalog.pg_class WHERE relkind = 'r' AND relnamespace = (SELECT oid FROM pg_catalog.pg_namespace WHERE nspname = 'public')"
    [])) = true ∧
  (currentDatabaseFilter (query (mkQuery "SHOW TABLES" [])) = true ∨
   HasPrefix (query (mkQuery "SHOW TABLES" [])) "SHOW " = true).
Proof.
  split.
  - destruct (schema_restriction_by_dialect Tables "" (mkQuery
      "SELECT relname as table_name FROM pg_catalog.pg_class WHERE relkind = 'r' AND relnamespace = (SELECT oid FROM pg_catalog.pg_namespace WHERE nspname = 'public')"
      [])) as (Hpostgres & _ & _).
    apply Hpostgres. do 2 right. left.
  - destruct (schema_restriction_by_dialect Tables "" (mkQuery "SHOW TABLES" []))
      as (_ & Hmysql & _).
    apply Hmysql. right. left.
Defined.
(** * Further properties of the code *)

(** ** Dialect strategies *)

Lemma NewDatabaseStrategy_cases (driverName : string) :
  NewDatabaseStrategy driverName ∈ strategies.
Proof.
  unfold NewDatabaseStrategy, strategies.
  repeat case_decide; set_solver.
Qed.

Ltac unfold_candidates :=
  cbv beta iota zeta delta
    [candidates
     GetTablesQueries GetColumnsQueries GetRelationshipsQueries
     GetPrimaryKeysQueries GetIndexesQueries GetEnumValuesQueries
     GetUniqueConstraintsQueries GetTableStatsQueries
     PostgresStrategy.strategy PostgresStrategy.GetTablesQueries
     PostgresStrategy.GetColumnsQueries PostgresStrategy.GetRelationshipsQueries
     PostgresStrategy.GetPrimaryKeysQueries PostgresStrategy.GetIndexesQueries
     PostgresStrategy.GetEnumValuesQueries
     PostgresStrategy.GetUniqueConstraintsQueries
     PostgresStrategy.GetTableStatsQueries
     MySQLStrategy.strategy MySQLStrategy.GetTablesQueries
     MySQLStrategy.GetColumnsQueries MySQLStrategy.GetRelationshipsQueries
     MySQLStrategy.GetPrimaryKeysQueries MySQLStrategy.GetIndexesQueries
     MySQLStrategy.GetEnumValuesQueries
     MySQLStrategy.GetUniqueConstraintsQueries
     MySQLStrategy.GetTableStatsQueries
     GenericStrategy.strategy GenericStrategy.GetTablesQueries
     GenericStrategy.GetColumnsQueries GenericStrategy.GetRelationshipsQueries
     GenericStrategy.GetPrimaryKeysQueries GenericStrategy.GetIndexesQueries
     GenericStrategy.GetEnumValuesQueries
     GenericStrategy.GetUniqueConstraintsQueries
     GenericStrategy.GetTableStatsQueries].

Ltac strategy_cases Hs :=
  unfold strategies in Hs;
  apply elem_of_cons in Hs as [->|Hs];
  [|apply elem_of_cons in Hs as [->|Hs];
    [|apply elem_of_cons in Hs as [->|Hs];
      [|by apply elem_of_nil in Hs]]].

(** X1. Whatever the driver name, facet and table argument, the selected
    strategy offers at least one candidate. *)
Theorem candidates_nonempty (driverName : string) (f : facet) (table : string) :
  candidates (NewDatabaseStrategy driverName) f table ≠ [].
Proof.
  pose proof (NewDatabaseStrategy_cases driverName) as Hs.
  revert Hs. generalize (NewDatabaseStrategy driverName). intros s Hs.
  strategy_cases Hs; destruct f; unfold_candidates;
    try case_decide; discriminate.
Qed.

(** X2. Empty-table convention: for the facets with an optional table, a
    candidate carries no argument exactly when the table argument is
    empty; with a table, every argument it carries is that table name. *)
Theorem candidates_table_scope (s : DatabaseStrategy) (f : facet)
    (table : string) (q : queryWithArgs) :
  s ∈ strategies →
  q ∈ candidates s f table →
  Forall (λ a, a = VString table) (args q) ∧
  (tableScoped f = true → (args q = [] ↔ table = "")).
Proof.
  intros Hs H.
  strategy_cases Hs; destruct f; candidate_cases H; cbn [args app tableScoped];
    (split; [by repeat constructor|]);
    first
      [ by intros [=]
      | intros _; split; intros Hx;
        first [done | discriminate | by destruct (decide (table = ""))] ].
Qed.

(** X3. The arguments of every candidate fit the placeholders of its text
    (the [SHOW COLUMNS] fallback aside, whose text holds the table name
    itself). *)
Theorem candidates_placeholders (s : DatabaseStrategy) (f : facet)
    (table : string) (q : queryWithArgs) :
  s ∈ strategies →
  q ∈ candidates s f table →
  showColumns q = false →
  placeholdersMatch q = true.
Proof.
  intros Hs H Hshow.
  strategy_cases Hs; destruct f; candidate_cases H;
    first [ vm_compute; reflexivity | by vm_compute in Hshow ].
Qed.

(** X4. The table name never enters the text of a query, the
    [SHOW COLUMNS] fallback of MySQL aside: for two non-empty table names a
    facet has as many candidates, with the same texts. *)
Theorem candidates_text_independent_of_table (s : DatabaseStrategy) (f : facet)
    (t1 t2 : string) :
  s ∈ strategies →
  t1 ≠ "" → t2 ≠ "" →
  length (candidates s f t1) = length (candidates s f t2) ∧
  query <$> filter (λ q, showColumns q = false) (candidates s f t1) =
  query <$> filter (λ q, showColumns q = false) (candidates s f t2).
Proof.
  intros Hs H1 H2.
  strategy_cases Hs; destruct f; unfold_candidates;
    repeat case_decide; try done; split; vm_compute; reflexivity.
Qed.

Lemma candidates_text_independent_of_table_witness :
  length (candidates MySQLStrategy.strategy Columns "users") =
    length (candidates MySQLStrategy.strategy Columns "orders") ∧
  query <$> filter (λ q, showColumns q = false)
              (candidates MySQLStrategy.strategy Columns "users") =
  query <$> filter (λ q, showColumns q = false)
              (candidates MySQLStrategy.strategy Columns "orders").
Proof.
  apply (candidates_text_independent_of_table MySQLStrategy.strategy Columns
           "users" "orders").
  - right. left.
  - discriminate.
  - discriminate.
Defined.

Lemma candidates_table_scope_witness :
  Forall (λ a, a = VString "users")
    (args (firstCandidate MySQLStrategy.strategy Indexes "users")) ∧
  (tableScoped Indexes = true →
   (args (firstCandidate MySQLStrategy.strategy Indexes "users") = [] ↔
    "users" = "")).
Proof.
  apply (candidates_table_scope MySQLStrategy.strategy Indexes "users").
  - right. left.
  - vm_compute. left.
Defined.

Lemma candidates_placeholders_witness :
  placeholdersMatch (firstCandidate GenericStrategy.strategy Relationships "users")
    = true.
Proof.
  apply (candidates_placeholders GenericStrategy.strategy Relationships "users").
  - do 2 right. left.
  - vm_compute. left.
  - vm_compute. reflexivity.
Defined.

(** X5. In the MySQL and generic strategies the table-scoped candidate of
    the primary-key, index and unique-constraint facets (and of the MySQL
    statistics facet) is the text of the global candidate, its closing
    [ORDER BY] clause included, with the table condition appended after
    it. *)
Theorem table_condition_follows_order_by (f : facet) (table : string) :
  table ≠ "" →
  (f ∈ [PrimaryKeys; Indexes; UniqueConstraints; TableStats] →
   ∃ base condition,
     candidates MySQLStrategy.strategy f "" = [mkQuery base []] ∧
     candidates MySQLStrategy.strategy f table =
       [mkQuery (base +:+ condition) [VString table]] ∧
     Contains base "ORDER BY" = true ∧ condition ≠ "") ∧
  (f ∈ [PrimaryKeys; Indexes; UniqueConstraints] →
   ∃ base condition,
     candidates GenericStrategy.strategy f "" = [mkQuery base []] ∧
     candidates GenericStrategy.strategy f table =
       [mkQuery (base +:+ condition) [VString table]] ∧
     Contains base "ORDER BY" = true ∧ condition ≠ "").
Proof.
  intros Hne. split; intros Hf; elem_cases Hf; unfold_candidates;
    rewrite decide_True by done; rewrite decide_False by done;
    eexists _, _; (split_and!; [reflexivity|reflexivity|by vm_compute|done]).
Qed.

(** ** Fallback executor and facet operations *)

Section ExecutorProperties.

Context {Rows : Type}.
Variable rowsToMaps : Rows → result (list Row).
Implicit Types (db : @Database Rows) (qs : list queryWithArgs).

(** The loop, whatever the outcome of the candidates. *)
Lemma fallback_loop_outcome db qs lastErr :
  trace_of (fallback_loop db qs lastErr) `prefix_of` qs ∧
  ((∃ rows, value_of (fallback_loop db qs lastErr) = inl rows) ↔
   Exists (λ q, is_Ok (Query db q)) qs) ∧
  (∀ e, value_of (fallback_loop db qs lastErr) = inr e →
        trace_of (fallback_loop db qs lastErr) = qs ∧ Forall (fails db) qs).
Proof.
  revert lastErr. induction qs as [|q rest IH]; intros lastErr.
  { split_and!; [done| |done].
    split; [by intros [? [=]]|by intros ?%Exists_nil]. }
  cbn [fallback_loop]. rewrite value_of_bind, trace_of_bind.
  unfold db_Query. cbn [value_of trace_of fst snd].
  destruct (Query db q) as [rows|err] eqn:Hq.
  - cbn. split_and!.
    + by apply prefix_cons, prefix_nil.
    + split; [|by eauto]. intros _. left. by exists rows.
    + intros e [=].
  - destruct (IH (Some err)) as (Hpre & Hok & Herr).
    split_and!.
    + by apply prefix_cons.
    + rewrite Hok. split; [by right|].
      intros [[rows Hrows]|H]%Exists_cons; [congruence|done].
    + intros e He. destruct (Herr e He) as [Htrace Hall].
      split; [by rewrite Htrace|]. constructor; [by exists err|done].
Qed.

(** X6. The queries sent are always a prefix of the candidate list, and
    the executor succeeds exactly when some candidate succeeds. *)
Theorem executeWithFallbacks_prefix_and_success db qs operationName :
  trace_of (executeWithFallbacks db qs operationName) `prefix_of` qs ∧
  (is_Ok (value_of (executeWithFallbacks db qs operationName)) ↔
   Exists (λ q, is_Ok (Query db q)) qs).
Proof.
  destruct (fallback_loop_outcome db qs None) as (Hpre & Hok & _).
  unfold executeWithFallbacks. rewrite value_of_bind, trace_of_bind.
  destruct (value_of (fallback_loop db qs None)) as [rows|e] eqn:Hv.
  - cbn. rewrite app_nil_r. split; [done|].
    rewrite <- Hok. split; [by eauto|]. intros _. by exists rows.
  - cbn. rewrite app_nil_r. split; [done|].
    rewrite <- Hok. split; [by intros [? [=]]|by intros [? [=]]].
Qed.

(** X7. An error of the executor on a non-empty candidate list always wraps
    the error of the last candidate, and every candidate was tried. *)
Theorem executeWithFallbacks_error_wraps_last db qs operationName e :
  qs ≠ [] →
  value_of (executeWithFallbacks db qs operationName) = Err e →
  ∃ qlast lastErr,
    last qs = Some qlast ∧
    Query db qlast = Err lastErr ∧
    Unwrap e = Some lastErr ∧
    trace_of (executeWithFallbacks db qs operationName) = qs.
Proof.
  intros Hne Hval.
  destruct (fallback_loop_outcome db qs None) as (_ & _ & Herr).
  unfold executeWithFallbacks in *.
  rewrite value_of_bind in Hval. rewrite trace_of_bind.
  destruct (value_of (fallback_loop db qs None)) as [rows|lastErr] eqn:Hv;
    [done|].
  destruct (Herr lastErr eq_refl) as [Htrace Hall].
  pose proof (fallback_loop_all_fail db qs None Hall) as Hloop.
  rewrite (surjective_pairing (fallback_loop db qs None)) in Hloop.
  injection Hloop as Hval' _. unfold value_of in Hv. rewrite Hv in Hval'.
  destruct (last qs) as [qlast|] eqn:Hlast; [|by apply last_None in Hlast].
  assert (Hin : qlast ∈ qs).
  { apply last_Some in Hlast as [l' Hl']. rewrite Hl'.
    apply elem_of_app. right. left. }
  destruct (proj1 (Forall_forall _ _) Hall _ Hin) as [d Hd].
  exists qlast, d. split_and!; [done|done| |].
  - injection Hval' as Hlast'. subst lastErr. cbn in Hval. unfold errorOf in Hval.
    rewrite Hd in Hval. cbn in Hval. by injection Hval as <-.
  - rewrite Htrace. cbn. by rewrite app_nil_r.
Qed.

(** With no candidate at all the executor sends nothing and returns a
    plain error that wraps nothing; its message ends in the marker [fmt]
    prints for a nil error. *)
Lemma executeWithFallbacks_no_candidates db operationName :
  executeWithFallbacks db [] operationName =
    (Err (errorString
       ((operationName +:+ " failed after trying 0 fallback queries: ") +:+
        "%!w(<nil>)")),
     []).
Proof. reflexivity. Qed.

(** X8. When every columns candidate fails, [getColumns] tried them all; its
    error names the table, then the operation and the number of candidates,
    then the driver's message, and the driver's error is two unwraps
    away. *)
Theorem getColumns_error_chain db table :
  Forall (fails db) (GetColumnsQueries (NewDatabaseStrategy (DriverName db)) table) →
  ∃ qlast lastErr e,
    last (GetColumnsQueries (NewDatabaseStrategy (DriverName db)) table) = Some qlast ∧
    Query db qlast = Err lastErr ∧
    value_of (getColumns rowsToMaps db table) = Err e ∧
    trace_of (getColumns rowsToMaps db table) =
      GetColumnsQueries (NewDatabaseStrategy (DriverName db)) table ∧
    Error e =
      ("failed to get columns for table " +:+ table +:+ ": ") +:+
      (("getColumns[" +:+ table +:+ "]") +:+ " failed after trying " +:+
       "2" +:+ " fallback queries: ") +:+ Error lastErr ∧
    Unwrap e ≫= Unwrap = Some lastErr.
Proof.
  intros Hall.
  assert (Hlen : length (GetColumnsQueries (NewDatabaseStrategy (DriverName db)) table) = 2).
  { pose proof (NewDatabaseStrategy_cases (DriverName db)) as Hs.
    revert Hs. generalize (NewDatabaseStrategy (DriverName db)). intros s Hs.
    by strategy_cases Hs. }
  destruct (last _) as [qlast|] eqn:Hlast;
    [|by apply last_None in Hlast; rewrite Hlast in Hlen].
  assert (Hin : qlast ∈ GetColumnsQueries (NewDatabaseStrategy (DriverName db)) table).
  { apply last_Some in Hlast as [l' Hl']. rewrite Hl'.
    apply elem_of_app. right. left. }
  destruct (proj1 (Forall_forall _ _) Hall _ Hin) as [d Hd].
  exists qlast, d. eexists.
  unfold getColumns, executeWithFallbacks.
  rewrite !value_of_bind, !trace_of_bind.
  rewrite (fallback_loop_all_fail _ _ _ Hall), Hlast, Hlen.
  cbn. unfold errorOf. rewrite Hd. cbn.
  split_and!; try reflexivity. by rewrite !app_nil_r.
Qed.

(** X9. When the table list cannot be fetched, [getFullSchema] stops there:
    it sends no query beyond those of [getTables], and wraps the error of
    [getTables] under the prefix that error already carries when the
    candidates were exhausted. *)
Theorem getFullSchema_tables_failure db err :
  value_of (getTables rowsToMaps db) = Err err →
  value_of (getFullSchema rowsToMaps db) =
    Err (Errorf_w "failed to get tables: " err) ∧
  trace_of (getFullSchema rowsToMaps db) = trace_of (getTables rowsToMaps db) ∧
  (Forall (fails db) (GetTablesQueries (NewDatabaseStrategy (DriverName db))) →
   HasPrefix (Error (Errorf_w "failed to get tables: " err))
     "failed to get tables: failed to get tables: getTables failed after trying"
     = true).
Proof.
  intros Hfail. split_and!.
  - unfold getFullSchema. by rewrite value_of_bind, Hfail.
  - unfold getFullSchema. rewrite trace_of_bind, Hfail. cbn. apply app_nil_r.
  - intros Hall. revert Hfail. unfold getTables, executeWithFallbacks.
    rewrite !value_of_bind, (fallback_loop_all_fail _ _ _ Hall). cbn.
    intros [= <-]. by destruct (from_option _ _ _).
Qed.

End ExecutorProperties.

(** ** Correlating rows by name *)

Lemma addEnum_lookup (enumsByType : gmap string (list string)) (enum : Row)
    (enumName : string) :
  addEnum enumsByType enum !! enumName =
    match enumLabels enumName [enum] with
    | [] => enumsByType !! enumName
    | labels => Some (default [] (enumsByType !! enumName) ++ labels)
    end.
Proof.
  unfold addEnum, enumLabels. cbn [omap list_omap].
  destruct (asString (enum !! "enum_name")) as [name|] eqn:Hname.
  - destruct (asString (enum !! "enum_value")) as [label|] eqn:Hlabel.
    + destruct (decide (name = enumName)) as [->|Hne].
      * rewrite decide_True by done. cbn. by rewrite lookup_insert_eq.
      * rewrite decide_False by congruence. cbn. by rewrite lookup_insert_ne.
    + by case_decide.
  - by rewrite decide_False.
Qed.

Lemma foldl_addEnum_lookup (enumValues : list Row)
    (enumsByType : gmap string (list string)) (enumName : string) :
  foldl addEnum enumsByType enumValues !! enumName =
    match enumLabels enumName enumValues with
    | [] => enumsByType !! enumName
    | labels => Some (default [] (enumsByType !! enumName) ++ labels)
    end.
Proof.
  revert enumsByType.
  induction enumValues as [|enum rest IH]; intros enumsByType; [done|].
  cbn [foldl]. rewrite IH, addEnum_lookup.
  replace (enumLabels enumName (enum :: rest))
    with (enumLabels enumName [enum] ++ enumLabels enumName rest)
    by (symmetry; apply (omap_app _ [enum] rest)).
  destruct (enumLabels enumName [enum]) as [|l0 ls0] eqn:H0;
    destruct (enumLabels enumName rest) as [|l1 ls1] eqn:H1; cbn; try done.
  - by rewrite app_nil_r.
  - by rewrite <- app_assoc.
Qed.

Lemma addForeignKey_lookup (fksByTable : gmap string (list Row)) (fk : Row)
    (tableName : string) :
  default [] (addForeignKey fksByTable fk !! tableName) =
    default [] (fksByTable !! tableName) ++ rowsOfTable tableName [fk].
Proof.
  unfold addForeignKey, rowsOfTable.
  destruct (asString (fk !! "table_name")) as [name|] eqn:Hname.
  - destruct (decide (name = tableName)) as [->|Hne].
    + rewrite filter_cons_True by done. by rewrite lookup_insert_eq.
    + rewrite filter_cons_False by congruence.
      rewrite lookup_insert_ne by done. by rewrite app_nil_r.
  - rewrite filter_cons_False by congruence. by rewrite app_nil_r.
Qed.

Lemma foldl_addForeignKey_lookup (foreignKeys : list Row)
    (fksByTable : gmap string (list Row)) (tableName : string) :
  default [] (foldl addForeignKey fksByTable foreignKeys !! tableName) =
    default [] (fksByTable !! tableName) ++ rowsOfTable tableName foreignKeys.
Proof.
  revert fksByTable.
  induction foreignKeys as [|fk rest IH]; intros fksByTable.
  { by rewrite app_nil_r. }
  cbn [foldl]. rewrite IH, addForeignKey_lookup, <- app_assoc.
  f_equal. unfold rowsOfTable. by rewrite <- filter_app.
Qed.

Lemma foldl_addStat_lookup (stats : list Row) (statsByTable : gmap string Row)
    (tableName : string) :
  foldl addStat statsByTable stats !! tableName =
    match last (rowsOfTable tableName stats) with
    | Some stat => Some stat
    | None => statsByTable !! tableName
    end.
Proof.
  revert statsByTable.
  induction stats as [|stat rest IH]; intros statsByTable; [done|].
  cbn [foldl]. rewrite IH. unfold rowsOfTable, addStat.
  destruct (asString (stat !! "table_name")) as [name|] eqn:Hname.
  - destruct (decide (name = tableName)) as [->|Hne].
    + rewrite filter_cons_True by done. rewrite lookup_insert_eq.
      fold (rowsOfTable tableName rest).
      by destruct (rowsOfTable tableName rest) as [|r rs] using rev_ind;
        [|rewrite app_comm_cons, !last_snoc].
    + rewrite filter_cons_False by congruence.
      by rewrite lookup_insert_ne.
  - by rewrite filter_cons_False by congruence.
Qed.

(** ** The assembled document *)

Lemma named_or_unnamed (tablesSlice : list Row) :
  Forall named tablesSlice ∨
  Exists (λ tableInfo : Row, asString (tableInfo !! "table_name") = None) tablesSlice.
Proof.
  induction tablesSlice as [|r rest [IH|IH]].
  - left. constructor.
  - destruct (asString (r !! "table_name")) as [T|] eqn:Hr.
    + left. constructor; [|done]. apply named_asString. rewrite Hr. by eexists.
    + right. by left.
  - right. by right.
Qed.

Section DocumentContents.

Context {Rows : Type}.
Variable rowsToMaps : Rows → result (list Row).
Implicit Types (db : @Database Rows) (tablesSlice : list Row).

Lemma getColumns_Ok db table v :
  value_of (getColumns rowsToMaps db table) = Ok v →
  ∃ results, v = VMap {[ "table" := VString table;
                         "columns" := VRows results;
                         "dbType" := VString (DriverName db) ]}.
Proof.
  unfold getColumns. rewrite value_of_bind.
  destruct (value_of (executeWithFallbacks _ _ _)) as [rows|err]; [|done].
  destruct (rowsToMaps rows) as [results|err]; [|done].
  intros [= <-]. by exists results.
Qed.

Lemma enumCatalogOf_foldl db :
  enumCatalogOf rowsToMaps db =
    foldl addEnum ∅ (enumValuesOf (value_of (getEnumValues rowsToMaps db))).
Proof.
  unfold enumCatalogOf, enumsByTypeOf.
  by destruct (value_of (getEnumValues rowsToMaps db)).
Qed.

Lemma statsIndexOf_foldl db :
  statsIndexOf rowsToMaps db =
    foldl addStat ∅ (rowsOrEmpty "stats" (value_of (getTableStats rowsToMaps db ""))).
Proof.
  unfold statsIndexOf, statsByTableOf, rowsOrEmpty.
  destruct (value_of (getTableStats rowsToMaps db "")) as [v|e]; [|done].
  by destruct (asRows (mapOrNil v !! "stats")).
Qed.

(** The entry of a listed table whose columns were read, in full. *)
Lemma getFullSchema_entries db tablesSlice :
  tableListOf rowsToMaps db = Some tablesSlice →
  Forall named tablesSlice →
  ∃ detailed,
    value_of (getFullSchema rowsToMaps db) =
      Ok (VMap (documentOf rowsToMaps db tablesSlice detailed)) ∧
    (∀ T columnsResult,
       listed tablesSlice T →
       value_of (getColumns rowsToMaps db T) = Ok columnsResult →
       detailed !! T =
         Some (tableSchemaOf rowsToMaps db (enumCatalogOf rowsToMaps db)
                 (statsIndexOf rowsToMaps db) T columnsResult)) ∧
    (∀ T, ¬ listed tablesSlice T
          ∨ is_Err (value_of (getColumns rowsToMaps db T)) →
          detailed !! T = None).
Proof.
  intros Hlist Hnamed.
  destruct (tablesLoop_named rowsToMaps db (enumCatalogOf rowsToMaps db)
              (statsIndexOf rowsToMaps db) tablesSlice ∅ Hnamed)
    as (detailed & Hval & Hin & Hout).
  exists detailed. rewrite (getFullSchema_value _ _ _ Hlist), Hval.
  split_and!; [done|done|].
  intros T HT. by rewrite (Hout T HT).
Qed.

(** X10. [getFullSchema] succeeds exactly when the table list is fetched
    and each of its rows names its table: no failure of the columns, keys,
    indexes, constraints, enum, statistics or relationship fetches, nor of
    reading their rows, makes the call fail. *)
Theorem getFullSchema_succeeds_iff db :
  is_Ok (value_of (getFullSchema rowsToMaps db)) ↔
  ∃ tablesSlice,
    tableListOf rowsToMaps db = Some tablesSlice ∧ Forall named tablesSlice.
Proof.
  split.
  - intros [doc Hdoc].
    destruct (value_of (getTables rowsToMaps db)) as [v|err] eqn:Hv.
    + destruct (getTables_Ok _ _ _ Hv) as [results ->].
      assert (Hlist : tableListOf rowsToMaps db = Some results).
      { unfold tableListOf. rewrite Hv, mapOrNil_VMap.
        by rewrite lookup_insert_eq. }
      exists results. split; [done|].
      destruct (named_or_unnamed results) as [Hall|Hex]; [done|].
      rewrite (getFullSchema_value _ _ _ Hlist) in Hdoc.
      destruct (tablesLoop_unnamed rowsToMaps db (enumCatalogOf rowsToMaps db)
                  (statsIndexOf rowsToMaps db) results ∅)
        as (r & err & _ & _ & Hval).
      { eapply Exists_impl; [exact Hex|]. intros r Hr Hnamed.
        apply named_asString in Hnamed as [x Hx]. congruence. }
      by rewrite Hval in Hdoc.
    + by rewrite (getFullSchema_tables_fail _ _ _ Hv) in Hdoc.
  - intros (tablesSlice & Hlist & Hnamed).
    destruct (getFullSchema_entries db tablesSlice Hlist Hnamed) as (d & -> & _).
    by eexists.
Qed.

(** X11. The detailed schema has an entry exactly for the listed tables
    whose columns could be fetched. *)
Theorem getFullSchema_detailed_keys db tablesSlice :
  tableListOf rowsToMaps db = Some tablesSlice →
  Forall named tablesSlice →
  ∃ doc detailed,
    value_of (getFullSchema rowsToMaps db) = Ok (VMap doc) ∧
    doc !! "detailed_schema" = Some (VMap detailed) ∧
    ∀ T, is_Some (detailed !! T) ↔
         listed tablesSlice T ∧ is_Ok (value_of (getColumns rowsToMaps db T)).
Proof.
  intros Hlist Hnamed.
  destruct (getFullSchema_entries db tablesSlice Hlist Hnamed)
    as (detailed & Hval & Hin & Hout).
  eexists _, _. split_and!; [exact Hval|apply documentOf_detailed|].
  intros T. rewrite map_lookup_imap. split.
  - intros Hsome.
    destruct (listed_em tablesSlice T) as [Hl|Hnl].
    + split; [done|].
      destruct (value_of (getColumns rowsToMaps db T)) as [cr|e] eqn:Hcr;
        [by eexists|].
      rewrite (Hout T) in Hsome by (right; by eexists).
      by destruct Hsome.
    + rewrite (Hout T) in Hsome by (by left). by destruct Hsome.
  - intros [Hl [cr Hcr]]. rewrite (Hin T cr Hl Hcr). by eexists.
Qed.

(** X12. The shape of the document: it has exactly the five keys [tables],
    [detailed_schema], [foreign_keys], [enum_types] and [enum_values], and
    every entry of the detailed schema is a record with exactly the six keys
    [columns], [primary_keys], [indexes], [unique_constraints],
    [statistics] and [foreign_keys], whose [columns] is a list of rows. *)
Theorem getFullSchema_document_shape db tablesSlice :
  tableListOf rowsToMaps db = Some tablesSlice →
  Forall named tablesSlice →
  ∃ doc detailed,
    value_of (getFullSchema rowsToMaps db) = Ok (VMap doc) ∧
    dom doc = documentKeys ∧
    doc !! "detailed_schema" = Some (VMap detailed) ∧
    ∀ T tableSchema, detailed !! T = Some tableSchema →
      ∃ schema (columns : list Row),
        tableSchema = VMap schema ∧
        dom schema = tableSchemaKeys ∧
        schema !! "columns" = Some (VRows columns).
Proof.
  intros Hlist Hnamed.
  destruct (getFullSchema_entries db tablesSlice Hlist Hnamed)
    as (detailed & Hval & Hin & Hout).
  eexists _, _. split_and!; [exact Hval| |apply documentOf_detailed|].
  { unfold documentOf, documentKeys.
    rewrite !dom_insert_L, dom_singleton_L. set_solver. }
  intros T tableSchema. rewrite map_lookup_imap. intros HT.
  destruct (listed_em tablesSlice T) as [Hl|Hnl];
    [|by rewrite (Hout T) in HT by (by left)].
  destruct (value_of (getColumns rowsToMaps db T)) as [cr|e] eqn:Hcr;
    [|by rewrite (Hout T) in HT by (right; by eexists)].
  rewrite (Hin T cr Hl Hcr) in HT. cbn in HT. injection HT as <-.
  destruct (getColumns_Ok _ _ _ Hcr) as [raw ->].
  eexists _, (enhanceColumn (enumCatalogOf rowsToMaps db) <$> raw).
  split_and!; [reflexivity| |].
  - unfold tableSchemaKeys.
    rewrite !dom_insert_L, dom_singleton_L. set_solver.
  - rewrite lookup_insert_ne by done. rewrite lookup_insert_eq.
    unfold enhanceColumns. rewrite mapOrNil_VMap.
    rewrite lookup_insert_ne by done. rewrite lookup_insert_eq. cbn.
    by rewrite lookup_insert_eq.
Qed.

End DocumentContents.

Section EntryContents.

Context {Rows : Type}.
Variable rowsToMaps : Rows → result (list Row).
Implicit Types (db : @Database Rows) (tablesSlice : list Row).

(** The entry of a table in the returned document, part by part. *)
Lemma getFullSchema_entry_parts db tablesSlice :
  tableListOf rowsToMaps db = Some tablesSlice →
  Forall named tablesSlice →
  ∃ doc detailed,
    value_of (getFullSchema rowsToMaps db) = Ok (VMap doc) ∧
    doc !! "detailed_schema" = Some (VMap detailed) ∧
    doc !! "foreign_keys" = Some (VRows (foreignKeysOf rowsToMaps db)) ∧
    doc !! "enum_types" = Some (VEnums (enumCatalogOf rowsToMaps db)) ∧
    doc !! "enum_values" =
      Some (VRows (enumValuesOf (value_of (getEnumValues rowsToMaps db)))) ∧
    ∀ T tableSchema, detailed !! T = Some tableSchema →
      ∃ schema,
        tableSchema = VMap schema ∧
        schema !! "foreign_keys" =
          Some (VRows (rowsOfTable T (foreignKeysOf rowsToMaps db))) ∧
        schema !! "statistics" =
          Some (VMap (default ∅ (statsIndexOf rowsToMaps db !! T))) ∧
        schema !! "primary_keys" =
          Some (VRows (rowsOrEmpty "primary_keys"
                         (value_of (getPrimaryKeys rowsToMaps db T)))) ∧
        schema !! "indexes" =
          Some (VRows (rowsOrEmpty "indexes"
                         (value_of (getIndexes rowsToMaps db T)))) ∧
        schema !! "unique_constraints" =
          Some (VRows (rowsOrEmpty "unique_constraints"
                         (value_of (getUniqueConstraints rowsToMaps db T)))).
Proof.
  intros Hlist Hnamed.
  destruct (getFullSchema_entries rowsToMaps db tablesSlice Hlist Hnamed)
    as (detailed & Hval & Hin & Hout).
  eexists _, _.
  split_and!; [exact Hval|apply documentOf_detailed
              |by unfold documentOf; simplify_map_eq
              |by unfold documentOf; simplify_map_eq
              |by unfold documentOf; simplify_map_eq|].
  intros T tableSchema. rewrite map_lookup_imap. intros HT.
  destruct (listed_em tablesSlice T) as [Hl|Hnl];
    [|by rewrite (Hout T) in HT by (by left)].
  destruct (value_of (getColumns rowsToMaps db T)) as [cr|e] eqn:Hcr;
    [|by rewrite (Hout T) in HT by (right; by eexists)].
  rewrite (Hin T cr Hl Hcr) in HT. cbn in HT. injection HT as <-.
  eexists. split; [reflexivity|].
  split_and!; try by simplify_map_eq.
  rewrite lookup_insert_eq. do 2 f_equal.
  by rewrite foldl_addForeignKey_lookup, lookup_empty.
Qed.

(** X13. Foreign keys are attached by owning table: when rows of the
    document's global [foreign_keys] have a table's name as [table_name],
    the [foreign_keys] of that table's entry are exactly those rows, in the
    same order; rows that only reference the table are not among them. *)
Theorem getFullSchema_foreign_keys_by_table db tablesSlice :
  tableListOf rowsToMaps db = Some tablesSlice →
  Forall named tablesSlice →
  ∃ doc detailed foreignKeys,
    value_of (getFullSchema rowsToMaps db) = Ok (VMap doc) ∧
    doc !! "detailed_schema" = Some (VMap detailed) ∧
    doc !! "foreign_keys" = Some (VRows foreignKeys) ∧
    ∀ T tableSchema, detailed !! T = Some tableSchema →
      ∃ schema,
        tableSchema = VMap schema ∧
        (rowsOfTable T foreignKeys ≠ [] →
         schema !! "foreign_keys" = Some (VRows (rowsOfTable T foreignKeys))).
Proof.
  intros Hlist Hnamed.
  destruct (getFullSchema_entry_parts db tablesSlice Hlist Hnamed)
    as (doc & detailed & Hval & Hd & Hfk & _ & _ & Hentry).
  exists doc, detailed, (foreignKeysOf rowsToMaps db).
  split_and!; [done..|].
  intros T tableSchema HT.
  destruct (Hentry T tableSchema HT) as (schema & -> & Hfks & _).
  exists schema. by split.
Qed.

(** X14. Statistics are attached by table name, the last row winning: the
    [statistics] of a table's entry is the last row of the global
    statistics result whose [table_name] is that table, and the empty
    record when there is none (or the statistics could not be fetched). *)
Theorem getFullSchema_statistics_by_table db tablesSlice :
  tableListOf rowsToMaps db = Some tablesSlice →
  Forall named tablesSlice →
  ∃ doc detailed,
    value_of (getFullSchema rowsToMaps db) = Ok (VMap doc) ∧
    doc !! "detailed_schema" = Some (VMap detailed) ∧
    ∀ T tableSchema, detailed !! T = Some tableSchema →
      ∃ schema,
        tableSchema = VMap schema ∧
        schema !! "statistics" =
          Some (VMap (default ∅
            (last (rowsOfTable T
               (rowsOrEmpty "stats" (value_of (getTableStats rowsToMaps db ""))))))).
Proof.
  intros Hlist Hnamed.
  destruct (getFullSchema_entry_parts db tablesSlice Hlist Hnamed)
    as (doc & detailed & Hval & Hd & _ & _ & _ & Hentry).
  exists doc, detailed. split_and!; [done..|].
  intros T tableSchema HT.
  destruct (Hentry T tableSchema HT) as (schema & -> & _ & Hstat & _).
  exists schema. split; [done|]. rewrite Hstat. do 3 f_equal.
  rewrite statsIndexOf_foldl, foldl_addStat_lookup, lookup_empty.
  by destruct (last _).
Qed.

(** X15. A failed supplementary fetch leaves the table in the document:
    when the primary keys, the indexes or the unique constraints of a
    table cannot be fetched, the table's entry has the empty list for that
    part. *)
Theorem getFullSchema_supplementary_failures db tablesSlice :
  tableListOf rowsToMaps db = Some tablesSlice →
  Forall named tablesSlice →
  ∃ doc detailed,
    value_of (getFullSchema rowsToMaps db) = Ok (VMap doc) ∧
    doc !! "detailed_schema" = Some (VMap detailed) ∧
    ∀ T tableSchema, detailed !! T = Some tableSchema →
      ∃ schema,
        tableSchema = VMap schema ∧
        (is_Err (value_of (getPrimaryKeys rowsToMaps db T)) →
           schema !! "primary_keys" = Some (VRows [])) ∧
        (is_Err (value_of (getIndexes rowsToMaps db T)) →
           schema !! "indexes" = Some (VRows [])) ∧
        (is_Err (value_of (getUniqueConstraints rowsToMaps db T)) →
           schema !! "unique_constraints" = Some (VRows [])).
Proof.
  intros Hlist Hnamed.
  destruct (getFullSchema_entry_parts db tablesSlice Hlist Hnamed)
    as (doc & detailed & Hval & Hd & _ & _ & _ & Hentry).
  exists doc, detailed. split_and!; [done..|].
  intros T tableSchema HT.
  destruct (Hentry T tableSchema HT) as (schema & -> & _ & _ & Hpk & Hidx & Huc).
  exists schema. split_and!; [done| | |].
  - intros [e He]. by rewrite Hpk, He.
  - intros [e He]. by rewrite Hidx, He.
  - intros [e He]. by rewrite Huc, He.
Qed.

(** X16. The enum catalog lists, for each enum name, the [enum_value] of
    the document's [enum_values] rows with that [enum_name], in row order;
    a name without such a row is not a key. *)
Theorem getFullSchema_enum_catalog db tablesSlice :
  tableListOf rowsToMaps db = Some tablesSlice →
  Forall named tablesSlice →
  ∃ doc enumsByType enumValues,
    value_of (getFullSchema rowsToMaps db) = Ok (VMap doc) ∧
    doc !! "enum_types" = Some (VEnums enumsByType) ∧
    doc !! "enum_values" = Some (VRows enumValues) ∧
    ∀ enumName,
      enumsByType !! enumName =
        match enumLabels enumName enumValues with
        | [] => None
        | labels => Some labels
        end.
Proof.
  intros Hlist Hnamed.
  destruct (getFullSchema_entry_parts db tablesSlice Hlist Hnamed)
    as (doc & detailed & Hval & _ & _ & Hty & Hvals & _).
  eexists doc, _, _. split_and!; [done..|].
  intros enumName.
  rewrite enumCatalogOf_foldl, foldl_addEnum_lookup, lookup_empty.
  by destruct (enumLabels _ _).
Qed.

(** X17. Enum rows without a string [enum_value] (such as the rows of the
    MySQL candidate, which reports [enum_definition] instead) contribute
    nothing: when no row has one, the catalog is empty. *)
Theorem enumCatalogOf_without_enum_value db :
  Forall (λ enum : Row, asString (enum !! "enum_value") = None)
    (enumValuesOf (value_of (getEnumValues rowsToMaps db))) →
  enumCatalogOf rowsToMaps db = ∅.
Proof.
  intros Hall. apply map_eq. intros enumName.
  rewrite enumCatalogOf_foldl, foldl_addEnum_lookup, !lookup_empty.
  replace (enumLabels enumName _) with (@nil string); [done|].
  symmetry. unfold enumLabels.
  induction Hall as [|enum rest Hnone _ IH]; [done|].
  cbn. rewrite Hnone. by case_decide.
Qed.

End EntryContents.

(** ** Enum enhancement of columns *)

(** X18. Enhancing a column only ever writes [enum_values] and
    [enum_type]: every other field of the column is kept as fetched. *)
Theorem enhanceColumn_preserves_fields (enumsByType : gmap string (list string))
    (column : Row) (key : string) :
  key ≠ "enum_values" → key ≠ "enum_type" →
  enhanceColumn enumsByType column !! key = column !! key.
Proof.
  intros Hv Ht. unfold enhanceColumn.
  destruct (asString (column !! "udt_name")); [case_decide|];
    destruct (enumsByType !! _); by rewrite ?lookup_insert_ne.
Qed.

(** X19. A column that is not matched through [USER-DEFINED] and
    [udt_name] is looked up by its declared type: when that type names an
    enum the column gets its labels as [enum_values], and its [enum_type]
    is left as it was. *)
Theorem enhanceColumn_by_declared_type (enumsByType : gmap string (list string))
    (column : Row) (dataType : string) (enumVals : list string) :
  column !! "data_type" = Some (VString dataType) →
  dataType ≠ "USER-DEFINED" ∨ asString (column !! "udt_name") = None →
  enumsByType !! dataType = Some enumVals →
  enhanceColumn enumsByType column !! "enum_values" = Some (VStrings enumVals) ∧
  enhanceColumn enumsByType column !! "enum_type" = column !! "enum_type".
Proof.
  intros Htype Hbranch Henum. unfold enhanceColumn. rewrite Htype. cbn.
  destruct (asString (column !! "udt_name")) as [udtName|].
  - destruct Hbranch as [Hne|[=]]. rewrite decide_False by done.
    rewrite Henum. by simplify_map_eq.
  - rewrite Henum. by simplify_map_eq.
Qed.

(** X20. With an empty catalog (no enum type, or the enum fetch failed) the
    columns are returned exactly as fetched. *)
Theorem enhanceColumns_empty_catalog (columnsMap : gmap string value) :
  enhanceColumns ∅ columnsMap = columnsMap.
Proof.
  unfold enhanceColumns.
  destruct (columnsMap !! "columns") as [[]|] eqn:Hcols; cbn; try done.
  apply insert_id. rewrite Hcols. do 2 f_equal. clear Hcols.
  induction l as [|column rest IH]; [done|].
  cbn. rewrite <- IH. f_equal.
  unfold enhanceColumn. rewrite !lookup_empty.
  by destruct (asString (column !! "udt_name")); [case_decide|].
Qed.

(** ** Schema cache, continued *)

Lemma Sub_mono (t t' u : Z) : (t ≤ t')%Z → (Sub t u ≤ Sub t' u)%Z.
Proof.
  intros Hle. unfold Sub, maxDuration, minDuration.
  repeat case_match; lia.
Qed.

(** X21. Entries are independent: storing or invalidating one key does not
    change what [Get] returns for another. *)
Theorem SchemaCache_key_isolation (c : SchemaCache) (now t : Z) (k k' : string)
    (v : value) :
  k ≠ k' →
  SchemaCache_Get (SchemaCache_Set c now k v) t k' = SchemaCache_Get c t k' ∧
  SchemaCache_Get (SchemaCache_Invalidate c k) t k' = SchemaCache_Get c t k'.
Proof.
  intros Hne. unfold SchemaCache_Get, SchemaCache_Set, SchemaCache_Invalidate.
  cbn. by rewrite lookup_insert_ne, lookup_delete_ne.
Qed.

(** X22. [Set] overwrites unconditionally: a second [Set] for a key
    replaces the first entry, value and timestamp, and the time-to-live
    stays what it was. *)
Theorem SchemaCache_Set_overwrites (c : SchemaCache) (t1 t2 : Z) (k : string)
    (v1 v2 : value) :
  SchemaCache_Set (SchemaCache_Set c t1 k v1) t2 k v2 = SchemaCache_Set c t2 k v2 ∧
  ttl (SchemaCache_Set c t2 k v2) = ttl c.
Proof.
  unfold SchemaCache_Set. cbn. by rewrite insert_insert_eq.
Qed.

(** X23. Invalidation: after [Invalidate] of a key, or [InvalidateAll],
    [Get] finds nothing for it however fresh the entry was; the
    time-to-live is unchanged. *)
Theorem SchemaCache_invalidation (c : SchemaCache) (now t : Z) (k k' : string)
    (v : value) :
  SchemaCache_Get (SchemaCache_Invalidate (SchemaCache_Set c now k v) k) t k
    = (VNil, false) ∧
  SchemaCache_Get (SchemaCache_InvalidateAll (SchemaCache_Set c now k v)) t k'
    = (VNil, false) ∧
  ttl (SchemaCache_Invalidate c k) = ttl c ∧
  ttl (SchemaCache_InvalidateAll c) = ttl c.
Proof.
  unfold SchemaCache_Get, SchemaCache_Invalidate, SchemaCache_InvalidateAll.
  cbn. by rewrite lookup_delete_eq, lookup_empty.
Qed.

Lemma CleanupExpired_lookup (c : SchemaCache) (now : Z) (k : string) :
  entries (SchemaCache_CleanupExpired c now) !! k =
    match entries c !! k with
    | Some entry =>
        if (ttl c <? Sub now (timestamp entry))%Z then None else Some entry
    | None => None
    end.
Proof.
  unfold SchemaCache_CleanupExpired. cbn.
  destruct (entries c !! k) as [entry|] eqn:Hk.
  - destruct (ttl c <? Sub now (timestamp entry))%Z eqn:Hexp.
    + apply map_lookup_filter_None. right. intros e He.
      rewrite Hk in He. injection He as <-. cbn.
      apply Z.ltb_lt in Hexp. by intros ?.
    + apply map_lookup_filter_Some. split; [done|]. cbn.
      apply Z.ltb_ge in Hexp. lia.
  - apply map_lookup_filter_None. by left.
Qed.

(** X24. [CleanupExpired] removes exactly the entries whose age exceeds the
    time-to-live at the time of the sweep, and is invisible to readers:
    at the time of the sweep or later, [Get] returns what it would have
    returned without it. *)
Theorem SchemaCache_CleanupExpired_invisible (c : SchemaCache) (now t : Z)
    (k : string) :
  (now ≤ t)%Z →
  SchemaCache_Get (SchemaCache_CleanupExpired c now) t k = SchemaCache_Get c t k ∧
  (∀ entry, entries (SchemaCache_CleanupExpired c now) !! k = Some entry ↔
            entries c !! k = Some entry ∧ (Sub now (timestamp entry) ≤ ttl c)%Z).
Proof.
  intros Hle. split.
  - unfold SchemaCache_Get. rewrite CleanupExpired_lookup.
    destruct (entries c !! k) as [entry|]; [|done].
    destruct (ttl c <? Sub now (timestamp entry))%Z eqn:Hexp; [|done].
    apply Z.ltb_lt in Hexp.
    pose proof (Sub_mono now t (timestamp entry) Hle) as Hmono.
    cbn. by rewrite (proj2 (Z.ltb_lt _ _)) by lia.
  - intros entry. rewrite CleanupExpired_lookup.
    destruct (entries c !! k) as [e|]; [|by split; [|intros []]].
    destruct (ttl c <? Sub now (timestamp e))%Z eqn:Hexp.
    + apply Z.ltb_lt in Hexp. split; [done|]. intros [[= ->] ?]. lia.
    + apply Z.ltb_ge in Hexp. split; [intros [= ->]; by split|by intros []].
Qed.

(** X25. Expiry is final: once [Get] misses a key it keeps missing it at
    every later time, until the key is stored again. *)
Theorem SchemaCache_expiry_is_final (c : SchemaCache) (t t' : Z) (k : string) :
  (t ≤ t')%Z →
  (SchemaCache_Get c t k).2 = false →
  SchemaCache_Get c t' k = (VNil, false).
Proof.
  intros Hle. unfold SchemaCache_Get.
  destruct (entries c !! k) as [entry|]; [|done].
  pose proof (Sub_mono t t' (timestamp entry) Hle) as Hmono.
  destruct (ttl c <? Sub t (timestamp entry))%Z eqn:Hexp; [|done].
  apply Z.ltb_lt in Hexp. intros _.
  by rewrite (proj2 (Z.ltb_lt _ _)) by lia.
Qed.

(** X26. The configured time-to-live: five minutes when the setting is
    unset or is not a number; otherwise the number of seconds given, in
    nanoseconds, as long as that fits a 64-bit duration. *)
Theorem getSchemaCacheTTL_value (Atoi : string → option Z) (ttlStr : string) :
  (ttlStr = "" ∨ Atoi ttlStr = None →
     getSchemaCacheTTL Atoi ttlStr = (5 * Minute)%Z) ∧
  (∀ ttlSeconds,
     ttlStr ≠ "" → Atoi ttlStr = Some ttlSeconds →
     (-9223372036 ≤ ttlSeconds ≤ 9223372036)%Z →
     getSchemaCacheTTL Atoi ttlStr = (ttlSeconds * Second)%Z).
Proof.
  unfold getSchemaCacheTTL. split.
  - intros [->|Hnone]; [done|]. case_decide; [done|]. by rewrite Hnone.
  - intros n Hne Hn Hrange. rewrite decide_False by done. rewrite Hn.
    unfold wrap64, Second.
    rewrite Z.mod_small by lia. lia.
Qed.

(** ** Read-only guard, continued *)

Lemma keywordLoop_None upperQuery keywords :
  keywordLoop upperQuery keywords = None ↔
  ∀ keyword, keyword ∈ keywords →
    HasPrefix upperQuery keyword = false ∧
    Contains upperQuery (";" +:+ keyword) = false ∧
    Contains upperQuery ("; " +:+ keyword) = false.
Proof.
  induction keywords as [|kw rest IH]; cbn [keywordLoop].
  { split; [|done]. intros _ k Hk. by apply elem_of_nil in Hk. }
  destruct (HasPrefix upperQuery kw) eqn:Hp.
  { split; [done|]. intros H. destruct (H kw) as [? _]; [left|congruence]. }
  destruct (Contains upperQuery (";" +:+ kw)) eqn:H1.
  { split; [done|]. intros H. destruct (H kw) as (_ & ? & _); [left|congruence]. }
  destruct (Contains upperQuery ("; " +:+ kw)) eqn:H2.
  { split; [done|]. intros H. destruct (H kw) as (_ & _ & ?); [left|congruence]. }
  cbn. rewrite IH. split.
  - intros H k [->|Hk]%elem_of_cons; [done|by apply H].
  - intros H k Hk. apply H. by right.
Qed.

Lemma patternLoop_None upperQuery patterns :
  patternLoop upperQuery patterns = None ↔
  ∀ pattern, pattern ∈ patterns → Contains upperQuery pattern = false.
Proof.
  induction patterns as [|p rest IH]; cbn [patternLoop].
  { split; [|done]. intros _ k Hk. by apply elem_of_nil in Hk. }
  destruct (Contains upperQuery p) eqn:Hp.
  { split; [done|]. intros H. rewrite (H p) in Hp; [done|left]. }
  rewrite IH. split.
  - intros H k [->|Hk]%elem_of_cons; [done|by apply H].
  - intros H k Hk. apply H. by right.
Qed.

Section GuardCharacterisation.

Variable ToUpper : string → string.
Variable TrimSpace : string → string.

Lemma validateReadOnlyQuery_None_iff (query : string) :
  validateReadOnlyQuery ToUpper TrimSpace query = None ↔
  (∀ keyword, keyword ∈ writeKeywords →
     HasPrefix (ToUpper (TrimSpace query)) keyword = false ∧
     Contains (ToUpper (TrimSpace query)) (";" +:+ keyword) = false ∧
     Contains (ToUpper (TrimSpace query)) ("; " +:+ keyword) = false) ∧
  (∀ pattern, pattern ∈ dangerousPatterns →
     Contains (ToUpper (TrimSpace query)) pattern = false) ∧
  Contains (ToUpper (TrimSpace query)) " INTO " = false.
Proof.
  unfold validateReadOnlyQuery.
  rewrite <- keywordLoop_None, <- patternLoop_None.
  destruct (keywordLoop _ writeKeywords) as [e|] eqn:Hk.
  { split; [done|]. by intros [[=] _]. }
  destruct (patternLoop _ dangerousPatterns) as [e|] eqn:Hp.
  { split; [done|]. by intros (_ & [=] & _). }
  destruct (Contains _ " INTO ") eqn:Hinto; [|done].
  assert (Hins : Contains (ToUpper (TrimSpace query)) "INSERT INTO" = false).
  { apply (proj1 (patternLoop_None _ _) Hp). left. }
  rewrite Hins. cbn. split; [done|]. by intros (_ & _ & [=]).
Qed.


(** X27. What the guard lets through: a query is accepted exactly when its
    normalised text does not begin with a write keyword, has no write
    keyword right after a semicolon (or a semicolon and one space), holds
    none of the dangerous patterns, and does not contain [ INTO ]. *)
Theorem validateReadOnlyQuery_accepts_iff (query : string) :
  validateReadOnlyQuery ToUpper TrimSpace query = None ↔
  (∀ keyword, keyword ∈ writeKeywords →
     HasPrefix (ToUpper (TrimSpace query)) keyword = false ∧
     Contains (ToUpper (TrimSpace query)) (";" +:+ keyword) = false ∧
     Contains (ToUpper (TrimSpace query)) ("; " +:+ keyword) = false) ∧
  (∀ pattern, pattern ∈ dangerousPatterns →
     Contains (ToUpper (TrimSpace query)) pattern = false) ∧
  Contains (ToUpper (TrimSpace query)) " INTO " = false.
Proof. apply validateReadOnlyQuery_None_iff. Qed.

(** X28. Every query whose normalised text contains [ INTO ] is rejected:
    the exception the last check makes for [INSERT INTO] never applies,
    such a text having been rejected by the pattern check before. *)
Theorem validateReadOnlyQuery_rejects_into (query : string) :
  Contains (ToUpper (TrimSpace query)) " INTO " = true →
  is_Some (validateReadOnlyQuery ToUpper TrimSpace query).
Proof.
  intros Hinto.
  destruct (validateReadOnlyQuery ToUpper TrimSpace query) as [e|] eqn:Hv;
    [by eexists|].
  apply validateReadOnlyQuery_None_iff in Hv as (_ & _ & Hno). congruence.
Qed.

End GuardCharacterisation.

(** ** Tool handlers, continued *)

Section HandlerEdges.

Context {Rows : Type}.
Variable rowsToMaps : Rows → result (list Row).
Variable dbManager : option (@Manager Rows).
Variable getStringParam : gmap string value → string → string * bool.
Variable getArrayParam : gmap string value → string → list value * bool.
Variable TrackQuery : string → list value → M (result value) → M (result value).
Variable ToUpper : string → string.
Variable TrimSpace : string → string.

(** X29. A component other than [tables], [columns], [relationships] and
    [full] is refused without any query; once the manager and the
    database are resolved the error names the component. *)
Theorem handleSchemaExplorer_invalid_component params :
  (getStringParam params "component").1
    ∉ ["tables"; "columns"; "relationships"; "full"] →
  is_Err (value_of (handleSchemaExplorer rowsToMaps dbManager getStringParam params)) ∧
  trace_of (handleSchemaExplorer rowsToMaps dbManager getStringParam params) = [] ∧
  (∀ m component databaseID db,
     dbManager = Some m →
     getStringParam params "component" = (component, true) →
     getStringParam params "database" = (databaseID, true) →
     GetDatabase m databaseID = Ok db →
     value_of (handleSchemaExplorer rowsToMaps dbManager getStringParam params) =
       Err (errorString ("invalid component: " +:+ component))).
Proof.
  intros Hcomp. unfold handleSchemaExplorer.
  destruct dbManager as [m|]; [|by split_and!; [eexists| |]].
  destruct (getStringParam params "component") as [component ok] eqn:Hc.
  cbn in Hcomp.
  destruct ok; cbn; [|by split_and!; [eexists| |intros ????? [=]]].
  destruct (getStringParam params "database") as [databaseID ok] eqn:Hd.
  destruct ok; cbn; [|by split_and!; [eexists| |intros ?????? [=]]].
  destruct (GetDatabase m databaseID) as [db|err] eqn:Hdb.
  - assert (component ≠ "tables") by (intros ->; apply Hcomp; repeat constructor).
    assert (component ≠ "columns") by (intros ->; apply Hcomp; repeat constructor).
    assert (component ≠ "relationships")
      by (intros ->; apply Hcomp; repeat constructor).
    assert (component ≠ "full") by (intros ->; apply Hcomp; repeat constructor).
    rewrite !decide_False by done.
    split_and!; [by eexists|done|].
    by intros m' c' id' db' _ [= <-] _ _.
  - split_and!; [by eexists|done|].
    intros m' c' id' db' [= <-] _ [= <-] Hok. congruence.
Qed.

(** X30. A database identifier that is not among the manager's connections
    makes both handlers fail without sending any query. *)
Theorem handlers_unknown_database params m :
  dbManager = Some m →
  connections m !! (getStringParam params "database").1 = None →
  (is_Err (value_of (handleSchemaExplorer rowsToMaps dbManager getStringParam params)) ∧
   trace_of (handleSchemaExplorer rowsToMaps dbManager getStringParam params) = []) ∧
  (is_Err (value_of (handleQuery rowsToMaps dbManager getStringParam
                       getArrayParam TrackQuery ToUpper TrimSpace params)) ∧
   trace_of (handleQuery rowsToMaps dbManager getStringParam
               getArrayParam TrackQuery ToUpper TrimSpace params) = []).
Proof.
  intros -> Hnone. unfold handleSchemaExplorer, handleQuery, GetDatabase.
  destruct (getStringParam params "database") as [databaseID ok] eqn:Hd.
  cbn in Hnone. rewrite Hnone. split.
  - destruct (getStringParam params "component") as [component okc].
    destruct okc; cbn; [|by split; [eexists|]].
    destruct ok; cbn; by split; [eexists|].
  - destruct (getStringParam params "query") as [q okq].
    destruct okq; cbn; [|by split; [eexists|]].
    destruct (validateReadOnlyQuery ToUpper TrimSpace q); [by split; [eexists|]|].
    destruct ok; cbn; by split; [eexists|].
Qed.

End HandlerEdges.

(** ** Instances on the sample databases *)

Lemma executeWithFallbacks_error_wraps_last_witness :
  ∃ qlast lastErr,
    last (GetColumnsQueries PostgresStrategy.strategy "orders") = Some qlast ∧
    Query shopDB qlast = Err lastErr ∧
    Unwrap (wrapError
      "getColumns[orders] failed after trying 2 fallback queries: permission denied"
      denied) = Some lastErr ∧
    trace_of (executeWithFallbacks shopDB
      (GetColumnsQueries PostgresStrategy.strategy "orders") "getColumns[orders]")
      = GetColumnsQueries PostgresStrategy.strategy "orders".
Proof.
  apply (executeWithFallbacks_error_wraps_last shopDB
           (GetColumnsQueries PostgresStrategy.strategy "orders")
           "getColumns[orders]").
  - discriminate.
  - vm_compute. reflexivity.
Defined.

Lemma getColumns_error_chain_witness :
  ∃ qlast lastErr e,
    last (GetColumnsQueries (NewDatabaseStrategy (DriverName shopDB)) "orders")
      = Some qlast ∧
    Query shopDB qlast = Err lastErr ∧
    value_of (getColumns sampleRowsToMaps shopDB "orders") = Err e ∧
    trace_of (getColumns sampleRowsToMaps shopDB "orders") =
      GetColumnsQueries (NewDatabaseStrategy (DriverName shopDB)) "orders" ∧
    Error e =
      ("failed to get columns for table " +:+ "orders" +:+ ": ") +:+
      (("getColumns[" +:+ "orders" +:+ "]") +:+ " failed after trying " +:+
       "2" +:+ " fallback queries: ") +:+ Error lastErr ∧
    Unwrap e ≫= Unwrap = Some lastErr.
Proof.
  apply (getColumns_error_chain sampleRowsToMaps shopDB "orders").
  repeat constructor; exists denied; vm_compute; reflexivity.
Defined.

Lemma getFullSchema_tables_failure_witness :
  value_of (getFullSchema sampleRowsToMaps downDB) =
    Err (Errorf_w "failed to get tables: "
           (Errorf_w "failed to get tables: "
              (Errorf_w "getTables failed after trying 3 fallback queries: "
                 denied))) ∧
  trace_of (getFullSchema sampleRowsToMaps downDB) =
    trace_of (getTables sampleRowsToMaps downDB) ∧
  (Forall (fails downDB) (GetTablesQueries (NewDatabaseStrategy (DriverName downDB))) →
   HasPrefix
     (Error (Errorf_w "failed to get tables: "
               (Errorf_w "failed to get tables: "
                  (Errorf_w "getTables failed after trying 3 fallback queries: "
                     denied))))
     "failed to get tables: failed to get tables: getTables failed after trying"
     = true).
Proof.
  apply (getFullSchema_tables_failure sampleRowsToMaps downDB).
  vm_compute. reflexivity.
Defined.

Lemma shopTables_list : tableListOf sampleRowsToMaps shopDB = Some shopTables.
Proof. vm_compute. reflexivity. Qed.

Lemma shopTables_named : Forall named shopTables.
Proof. repeat constructor; eexists; vm_compute; reflexivity. Qed.

Lemma getFullSchema_detailed_keys_witness :
  ∃ doc detailed,
    value_of (getFullSchema sampleRowsToMaps shopDB) = Ok (VMap doc) ∧
    doc !! "detailed_schema" = Some (VMap detailed) ∧
    ∀ T, is_Some (detailed !! T) ↔
         listed shopTables T ∧
         is_Ok (value_of (getColumns sampleRowsToMaps shopDB T)).
Proof.
  apply (getFullSchema_detailed_keys sampleRowsToMaps shopDB shopTables).
  - exact shopTables_list.
  - exact shopTables_named.
Defined.

Lemma getFullSchema_document_shape_witness :
  ∃ doc detailed,
    value_of (getFullSchema sampleRowsToMaps shopDB) = Ok (VMap doc) ∧
    dom doc = documentKeys ∧
    doc !! "detailed_schema" = Some (VMap detailed) ∧
    ∀ T tableSchema, detailed !! T = Some tableSchema →
      ∃ schema (columns : list Row),
        tableSchema = VMap schema ∧
        dom schema = tableSchemaKeys ∧
        schema !! "columns" = Some (VRows columns).
Proof.
  apply (getFullSchema_document_shape sampleRowsToMaps shopDB shopTables).
  - exact shopTables_list.
  - exact shopTables_named.
Defined.

Example fkDB_foreign_keys :
  (λ fk : Row, fk !! "constraint_name") <$>
    rowsOfTable "orders" (foreignKeysOf sampleRowsToMaps fkDB) =
    [ Some (VString "orders_user_fk"); Some (VString "orders_product_fk") ] ∧
  rowsOfTable "users" (foreignKeysOf sampleRowsToMaps fkDB) = [].
Proof. split; vm_compute; reflexivity. Qed.

Lemma getFullSchema_foreign_keys_by_table_witness :
  ∃ doc detailed foreignKeys,
    value_of (getFullSchema sampleRowsToMaps fkDB) = Ok (VMap doc) ∧
    doc !! "detailed_schema" = Some (VMap detailed) ∧
    doc !! "foreign_keys" = Some (VRows foreignKeys) ∧
    ∀ T tableSchema, detailed !! T = Some tableSchema →
      ∃ schema,
        tableSchema = VMap schema ∧
        (rowsOfTable T foreignKeys ≠ [] →
         schema !! "foreign_keys" = Some (VRows (rowsOfTable T foreignKeys))).
Proof.
  apply (getFullSchema_foreign_keys_by_table sampleRowsToMaps fkDB shopTables).
  - vm_compute. reflexivity.
  - exact shopTables_named.
Defined.

Lemma getFullSchema_statistics_by_table_witness :
  ∃ doc detailed,
    value_of (getFullSchema sampleRowsToMaps shopDB) = Ok (VMap doc) ∧
    doc !! "detailed_schema" = Some (VMap detailed) ∧
    ∀ T tableSchema, detailed !! T = Some tableSchema →
      ∃ schema,
        tableSchema = VMap schema ∧
        schema !! "statistics" =
          Some (VMap (default ∅
            (last (rowsOfTable T
               (rowsOrEmpty "stats"
                  (value_of (getTableStats sampleRowsToMaps shopDB ""))))))).
Proof.
  apply (getFullSchema_statistics_by_table sampleRowsToMaps shopDB shopTables).
  - exact shopTables_list.
  - exact shopTables_named.
Defined.

Lemma getFullSchema_supplementary_failures_witness :
  ∃ doc detailed,
    value_of (getFullSchema sampleRowsToMaps shopDB) = Ok (VMap doc) ∧
    doc !! "detailed_schema" = Some (VMap detailed) ∧
    ∀ T tableSchema, detailed !! T = Some tableSchema →
      ∃ schema,
        tableSchema = VMap schema ∧
        (is_Err (value_of (getPrimaryKeys sampleRowsToMaps shopDB T)) →
           schema !! "primary_keys" = Some (VRows [])) ∧
        (is_Err (value_of (getIndexes sampleRowsToMaps shopDB T)) →
           schema !! "indexes" = Some (VRows [])) ∧
        (is_Err (value_of (getUniqueConstraints sampleRowsToMaps shopDB T)) →
           schema !! "unique_constraints" = Some (VRows [])).
Proof.
  apply (getFullSchema_supplementary_failures sampleRowsToMaps shopDB shopTables).
  - exact shopTables_list.
  - exact shopTables_named.
Defined.

Lemma getFullSchema_enum_catalog_witness :
  ∃ doc enumsByType enumValues,
    value_of (getFullSchema sampleRowsToMaps enumDB) = Ok (VMap doc) ∧
    doc !! "enum_types" = Some (VEnums enumsByType) ∧
    doc !! "enum_values" = Some (VRows enumValues) ∧
    ∀ enumName,
      enumsByType !! enumName =
        match enumLabels enumName enumValues with
        | [] => None
        | labels => Some labels
        end.
Proof.
  apply (getFullSchema_enum_catalog sampleRowsToMaps enumDB
           [ {[ "table_name" := VString "orders" ]} ]).
  - vm_compute. reflexivity.
  - repeat constructor; eexists; vm_compute; reflexivity.
Defined.

Lemma enumCatalogOf_without_enum_value_witness :
  enumCatalogOf sampleRowsToMaps mysqlEnumDB = ∅.
Proof.
  apply (enumCatalogOf_without_enum_value sampleRowsToMaps mysqlEnumDB).
  vm_compute. repeat constructor.
Defined.

Lemma enhanceColumn_preserves_fields_witness :
  enhanceColumn {[ "order_status" := ["pending"; "shipped"] ]}
    {[ "column_name" := VString "status";
       "data_type" := VString "USER-DEFINED";
       "udt_name" := VString "order_status" ]} !! "column_name" =
  ({[ "column_name" := VString "status";
      "data_type" := VString "USER-DEFINED";
      "udt_name" := VString "order_status" ]} : Row) !! "column_name".
Proof.
  apply (enhanceColumn_preserves_fields
           {[ "order_status" := ["pending"; "shipped"] ]}
           {[ "column_name" := VString "status";
              "data_type" := VString "USER-DEFINED";
              "udt_name" := VString "order_status" ]} "column_name");
    discriminate.
Defined.

Lemma enhanceColumn_by_declared_type_witness :
  enhanceColumn {[ "mood" := ["sad"; "happy"] ]}
    {[ "column_name" := VString "feeling"; "data_type" := VString "mood" ]}
    !! "enum_values" = Some (VStrings ["sad"; "happy"]) ∧
  enhanceColumn {[ "mood" := ["sad"; "happy"] ]}
    {[ "column_name" := VString "feeling"; "data_type" := VString "mood" ]}
    !! "enum_type" =
  ({[ "column_name" := VString "feeling"; "data_type" := VString "mood" ]} : Row)
    !! "enum_type".
Proof.
  apply (enhanceColumn_by_declared_type {[ "mood" := ["sad"; "happy"] ]}
           {[ "column_name" := VString "feeling"; "data_type" := VString "mood" ]}
           "mood" ["sad"; "happy"]).
  - reflexivity.
  - left. discriminate.
  - reflexivity.
Defined.

Lemma SchemaCache_key_isolation_witness :
  SchemaCache_Get
    (SchemaCache_Set (InitSchemaCache fiveMinutes) 1000 "shop" (VString "doc"))
    2000 "billing" =
  SchemaCache_Get (InitSchemaCache fiveMinutes) 2000 "billing" ∧
  SchemaCache_Get
    (SchemaCache_Invalidate (InitSchemaCache fiveMinutes) "shop") 2000 "billing" =
  SchemaCache_Get (InitSchemaCache fiveMinutes) 2000 "billing".
Proof.
  apply (SchemaCache_key_isolation (InitSchemaCache fiveMinutes) 1000 2000
           "shop" "billing" (VString "doc")).
  discriminate.
Defined.

Lemma SchemaCache_CleanupExpired_invisible_witness :
  SchemaCache_Get
    (SchemaCache_CleanupExpired
       (SchemaCache_Set (InitSchemaCache fiveMinutes) 1000 "shop" (VString "doc"))
       (1000 + fiveMinutes + 1))
    (1000 + fiveMinutes + 2) "shop" =
  SchemaCache_Get
    (SchemaCache_Set (InitSchemaCache fiveMinutes) 1000 "shop" (VString "doc"))
    (1000 + fiveMinutes + 2) "shop" ∧
  (∀ entry,
     entries (SchemaCache_CleanupExpired
       (SchemaCache_Set (InitSchemaCache fiveMinutes) 1000 "shop" (VString "doc"))
       (1000 + fiveMinutes + 1)) !! "shop" = Some entry ↔
     entries (SchemaCache_Set (InitSchemaCache fiveMinutes) 1000 "shop"
                (VString "doc")) !! "shop" = Some entry ∧
     (Sub (1000 + fiveMinutes + 1) (timestamp entry) ≤
      ttl (SchemaCache_Set (InitSchemaCache fiveMinutes) 1000 "shop"
             (VString "doc")))%Z).
Proof.
  apply (SchemaCache_CleanupExpired_invisible
           (SchemaCache_Set (InitSchemaCache fiveMinutes) 1000 "shop" (VString "doc"))
           (1000 + fiveMinutes + 1) (1000 + fiveMinutes + 2) "shop").
  vm_compute. discriminate.
Defined.

Lemma SchemaCache_expiry_is_final_witness :
  SchemaCache_Get
    (SchemaCache_Set (InitSchemaCache fiveMinutes) 1000 "shop" (VString "doc"))
    (2000 + fiveMinutes) "shop" = (VNil, false).
Proof.
  apply (SchemaCache_expiry_is_final
           (SchemaCache_Set (InitSchemaCache fiveMinutes) 1000 "shop" (VString "doc"))
           (1001 + fiveMinutes) (2000 + fiveMinutes) "shop").
  - vm_compute. discriminate.
  - vm_compute. reflexivity.
Defined.

Lemma validateReadOnlyQuery_rejects_into_witness :
  is_Some (validateReadOnlyQuery asciiToUpper asciiTrimSpace
             "select * into backup from users").
Proof.
  apply (validateReadOnlyQuery_rejects_into asciiToUpper asciiTrimSpace
           "select * into backup from users").
  vm_compute. reflexivity.
Defined.

Lemma handleSchemaExplorer_invalid_component_witness :
  value_of (handleSchemaExplorer sampleRowsToMaps (Some shopManager) readString
              {[ "component" := VString "schemas";
                 "database" := VString "shop" ]}) =
    Err (errorString ("invalid component: " +:+ "schemas")) ∧
  trace_of (handleSchemaExplorer sampleRowsToMaps (Some shopManager) readString
              {[ "component" := VString "schemas";
                 "database" := VString "shop" ]}) = [].
Proof.
  destruct (handleSchemaExplorer_invalid_component sampleRowsToMaps
              (Some shopManager) readString
              {[ "component" := VString "schemas";
                 "database" := VString "shop" ]})
    as (_ & Htrace & Hexplicit).
  - vm_compute. intros H. repeat (apply elem_of_cons in H as [[=]|H]).
    by apply elem_of_nil in H.
  - split; [|exact Htrace].
    apply (Hexplicit shopManager "schemas" "shop" shopDB); reflexivity.
Defined.

Lemma handlers_unknown_database_witness :
  (is_Err (value_of (handleSchemaExplorer sampleRowsToMaps (Some shopManager)
                       readString
                       {[ "component" := VString "tables";
                          "query" := VString "select 1";
                          "database" := VString "billing" ]})) ∧
   trace_of (handleSchemaExplorer sampleRowsToMaps (Some shopManager) readString
               {[ "component" := VString "tables";
                  "query" := VString "select 1";
                  "database" := VString "billing" ]}) = []) ∧
  (is_Err (value_of (handleQuery sampleRowsToMaps (Some shopManager) readString
                       readArray runTracked asciiToUpper asciiTrimSpace
                       {[ "component" := VString "tables";
                          "query" := VString "select 1";
                          "database" := VString "billing" ]})) ∧
   trace_of (handleQuery sampleRowsToMaps (Some shopManager) readString
               readArray runTracked asciiToUpper asciiTrimSpace
               {[ "component" := VString "tables";
                  "query" := VString "select 1";
                  "database" := VString "billing" ]}) = []).
Proof.
  apply (handlers_unknown_database sampleRowsToMaps (Some shopManager) readString
           readArray runTracked asciiToUpper asciiTrimSpace
           {[ "component" := VString "tables";
              "query" := VString "select 1";
              "database" := VString "billing" ]} shopManager).
  - reflexivity.
  - vm_compute. reflexivity.
Defined.

Lemma table_condition_follows_order_by_witness :
  ∃ base condition,
    candidates MySQLStrategy.strategy PrimaryKeys "" = [mkQuery base []] ∧
    candidates MySQLStrategy.strategy PrimaryKeys "users" =
      [mkQuery (base +:+ condition) [VString "users"]] ∧
    Contains base "ORDER BY" = true ∧ condition ≠ "".
Proof.
  destruct (table_condition_follows_order_by PrimaryKeys "users") as [Hmysql _].
  - discriminate.
  - apply Hmysql. left.
Defined.

Example validateReadOnlyQuery_newline_after_semicolon :
  validateReadOnlyQuery asciiToUpper asciiTrimSpace
    ("select 1;" +:+ String (Ascii.ascii_of_nat 10) "drop"
       +:+ String (Ascii.ascii_of_nat 9) "table users") = None.
Proof. vm_compute. reflexivity. Qed.

Lemma getSchemaCacheTTL_value_witness :
  getSchemaCacheTTL atoiSample "soon" = (5 * Minute)%Z ∧
  getSchemaCacheTTL atoiSample "60" = (60 * Second)%Z.
Proof.
  split.
  - apply (proj1 (getSchemaCacheTTL_value atoiSample "soon")). by right.
  - apply (proj2 (getSchemaCacheTTL_value atoiSample "60") 60%Z); [done|done|lia].
Defined.
